(** * built-in-chat: the chat session relay and the kernel handlers

    A shallow embedding of [ChatSession.send] (src/kernel.ts, the
    snapshot-slicing variant of src/ChatSession.ts and the inline variant of
    src/federation.ts) and of the request handlers of [BuiltInChatKernel].

    JavaScript strings are modelled as [string]; [length], [slice] and [+=]
    act on its characters the way the source acts on code units.  The
    asynchronous functions are modelled in a state-and-exception monad: every
    [await] in the source is on a single promise, so a call is a sequence of
    steps on a world, which either returns a value or throws.  A world holds
    the private [session] field of the relay, the state [H] owned by whoever
    supplied the [onChunk] callback, and the list of calls made on the outside
    (the capability, the stream reader, the callback, the console), in order. *)

From stdpp Require Import base strings gmap list pretty.
From Stdlib Require Import ZArith Lia.

(** ** JavaScript values *)

(** The values a request content carries: primitive values.  Numbers are
    modelled as integers (cursor positions and counters are).  A content that
    is itself nullish, or a property that is an object, is outside this
    model: on those [content.code] or [String(...)] can throw. *)
Inductive JsValue : Type :=
| JsUndefined
| JsNull
| JsBool (b : bool)
| JsNumber (n : Z)
| JsString (s : string).

#[global] Instance JsValue_eq_dec : EqDecision JsValue.
Proof. solve_decision. Defined.

(** A request content: a JavaScript object. *)
Abbreviation Content := (gmap string JsValue).

(** [o.k]: a missing property reads as [undefined]. *)
Definition get_prop (o : Content) (k : string) : JsValue :=
  default JsUndefined (o !! k).

(** [a ?? b] *)
Definition nullish (a b : JsValue) : JsValue :=
  match a with
  | JsUndefined | JsNull => b
  | _ => a
  end.

(** [String(v)]; an integer prints in decimal, as [String] prints it below
    1e21. *)
Definition to_String (v : JsValue) : string :=
  match v with
  | JsUndefined => "undefined"
  | JsNull => "null"
  | JsBool true => "true"
  | JsBool false => "false"
  | JsNumber n => pretty n
  | JsString s => s
  end.

(** Truthiness of a string: the empty string is the only falsy one. *)
Definition truthy (s : string) : bool :=
  match s with
  | EmptyString => false
  | String _ _ => true
  end.

(** [s.slice(start)] for a non-negative [start]: the characters from index
    [min(start, s.length)] on. *)
Fixpoint slice (start : nat) (s : string) : string :=
  match start, s with
  | O, _ => s
  | S n, String _ rest => slice n rest
  | S _, EmptyString => EmptyString
  end.

(** A thrown value, seen through what the handlers read of it: its [message]
    property ([None] when the value is nullish or the property is) and its
    [String(...)] conversion. *)
Record Thrown : Type := mkThrown {
  message : option string;
  as_String : string
}.

(** [new Error(msg)] *)
Definition Error (msg : string) : Thrown :=
  {| message := Some msg; as_String := "Error: " +:+ msg |}.

Inductive Outcome (A : Type) : Type :=
| Returned (a : A)
| Threw (e : Thrown).
Arguments Returned {A} a.
Arguments Threw {A} e.

(** ** The Prompt API, as the declarations of the source give it *)

Inductive Availability : Type :=
| unavailable
| available
| downloadable
| downloading.

#[global] Instance Availability_eq_dec : EqDecision Availability.
Proof. solve_decision. Defined.

(** A session handle (an instance of [LanguageModel]). *)
Record LanguageModel : Type := mkLanguageModel { handle : nat }.

#[global] Instance LanguageModel_eq_dec : EqDecision LanguageModel.
Proof. solve_decision. Defined.

(** A [ReadableStream<string>] that ends: the values its reader yields, then
    either [done] ([failure = None]) or a rejected read. *)
Record ReadableStream : Type := mkStream {
  items : list string;
  failure : option Thrown
}.

(** The global [LanguageModel] class during one call: what each of its
    operations answers.  [create] is told whether a [monitor] was passed. *)
Record LanguageModelClass : Type := mkClass {
  availability : Outcome Availability;
  create : bool -> Outcome LanguageModel;
  promptStreaming : LanguageModel -> string -> Outcome ReadableStream
}.

(** ** Worlds and the monad *)

Inductive Call : Type :=
| CallAvailability
| CallCreate (monitored : bool)
| CallPromptStreaming (s : LanguageModel) (input : string)
| CallGetReader
| CallRead
| CallOnChunk (chunk : string)
| CallReleaseLock
| CallConsoleLog (args : list string).

#[global] Instance Call_eq_dec : EqDecision Call.
Proof. solve_decision. Defined.

Record World (H : Type) : Type := mkWorld {
  session : option LanguageModel;
  calls : list Call;
  host : H
}.
Arguments mkWorld {H} _ _ _.
Arguments session {H} _.
Arguments calls {H} _.
Arguments host {H} _.

Definition M (H A : Type) : Type := World H -> Outcome A * World H.

(** The optional [onChunk]: a function of the chunk acting on its owner's
    state, which may throw. *)
Definition Callback (H : Type) : Type := string -> H -> Outcome unit * H.

Section Monad.
Context {H : Type}.

Definition ret {A} (a : A) : M H A := fun w => (Returned a, w).

Definition throw {A} (e : Thrown) : M H A := fun w => (Threw e, w).

Definition bind {A B} (m : M H A) (k : A -> M H B) : M H B :=
  fun w =>
    match m w with
    | (Returned a, w') => k a w'
    | (Threw e, w') => (Threw e, w')
    end.

(** [try { body } finally { fin }] *)
Definition try_finally {A} (body : M H A) (fin : M H unit) : M H A :=
  fun w =>
    match body w with
    | (r, w') =>
        match fin w' with
        | (Returned _, w'') => (r, w'')
        | (Threw e, w'') => (Threw e, w'')
        end
    end.

(** [try { body } catch (err) { handler }] *)
Definition try_catch {A} (body : M H A) (handler : Thrown -> M H A) : M H A :=
  fun w =>
    match body w with
    | (Returned a, w') => (Returned a, w')
    | (Threw e, w') => handler e w'
    end.

(** Record a call made on the outside. *)
Definition record (c : Call) : M H unit :=
  fun w => (Returned tt, mkWorld (session w) (calls w ++ [c]) (host w)).

(** A call on the outside that answers [r]. *)
Definition call {A} (c : Call) (r : Outcome A) : M H A :=
  fun w => (r, mkWorld (session w) (calls w ++ [c]) (host w)).

Definition get_session : M H (option LanguageModel) :=
  fun w => (Returned (session w), w).

Definition set_session (s : LanguageModel) : M H unit :=
  fun w => (Returned tt, mkWorld (Some s) (calls w) (host w)).

(** [onChunk(chunk)] *)
Definition invoke (f : Callback H) (chunk : string) : M H unit :=
  fun w =>
    match f chunk (host w) with
    | (r, h') => (r, mkWorld (session w) (calls w ++ [CallOnChunk chunk]) h')
    end.

(** [if (onChunk && chunk) onChunk(chunk)] *)
Definition notify (onChunk : option (Callback H)) (chunk : string) : M H unit :=
  match onChunk with
  | Some f => if truthy chunk then invoke f chunk else ret tt
  | None => ret tt
  end.
End Monad.
Arguments notify : simpl never.

(** The notations [x ← m; k] and [m ;; k] are those of stdpp, on [bind]. *)
#[global] Instance M_ret {H : Type} : MRet (M H) := fun A => ret.
#[global] Instance M_bind {H : Type} : MBind (M H) := fun A B k m => bind m k.

Definition msg_unsupported : string := "Browser does not support Chrome built-in AI.".
Definition msg_not_available : string := "Chrome built-in AI model is not available.".

(** [availability === "downloadable" || availability === "downloading"] *)
Definition needs_download (a : Availability) : bool :=
  match a with
  | downloadable | downloading => true
  | _ => false
  end.

(** The part the three relays share word for word: the availability gate and
    the lazy creation of the session; it returns [this.session]. *)
Section Provision.
Context {H : Type}.

Definition ensure_session (LM : LanguageModelClass) (a : Availability)
  : M H LanguageModel :=
  cur ← get_session;
  match cur with
  | Some s => ret s
  | None =>
      s ← call (CallCreate (needs_download a)) (create LM (needs_download a));
      set_session s ;;
      ret s
  end.

Definition provision (global : option LanguageModelClass) : M H (LanguageModelClass * LanguageModel) :=
  match global with
  | None => throw (Error msg_unsupported)
  | Some LM =>
      a ← call CallAvailability (availability LM);
      match a with
      | unavailable => throw (Error msg_not_available)
      | _ =>
          s ← ensure_session LM a;
          ret (LM, s)
      end
  end.
End Provision.

(** ** src/kernel.ts: [ChatSession.send], appending each value read *)
Module KernelTs.
Section Send.
Context {H : Type}.

(** The [while (true)] loop over the reader, one iteration per value of
    the stream; [reply] is the variable of the source. *)
Fixpoint read_loop (onChunk : option (Callback H)) (values : list string)
    (failure : option Thrown) (reply : string) : M H string :=
  match values with
  | [] =>
      record CallRead ;;
      match failure with
      | None => ret reply
      | Some e => throw e
      end
  | value :: rest =>
      record CallRead ;;
      let reply := reply +:+ value in
      notify onChunk value ;;
      read_loop onChunk rest failure reply
  end.

Definition send (global : option LanguageModelClass) (prompt : string)
    (onChunk : option (Callback H)) : M H string :=
  '(LM, s) ← provision global;
  stream ← call (CallPromptStreaming s prompt) (promptStreaming LM s prompt);
  record CallGetReader ;;
  try_finally
    (read_loop onChunk (items stream) (failure stream) "")
    (record CallReleaseLock).
End Send.
End KernelTs.

(** ** src/ChatSession.ts: [ChatSession.send], taking each value read as the
    reply so far and passing on what is new in it *)
Module ChatSessionTs.
Section Send.
Context {H : Type}.

Fixpoint read_loop (onChunk : option (Callback H)) (values : list string)
    (failure : option Thrown) (reply : string) (previousLength : nat) : M H string :=
  match values with
  | [] =>
      record CallRead ;;
      match failure with
      | None => ret reply
      | Some e => throw e
      end
  | value :: rest =>
      record CallRead ;;
      let newContent := slice previousLength value in
      let previousLength := String.length value in
      let reply := value in
      notify onChunk newContent ;;
      read_loop onChunk rest failure reply previousLength
  end.

Definition send (global : option LanguageModelClass) (prompt : string)
    (onChunk : option (Callback H)) : M H string :=
  '(LM, s) ← provision global;
  stream ← call (CallPromptStreaming s prompt) (promptStreaming LM s prompt);
  record CallGetReader ;;
  try_finally
    (read_loop onChunk (items stream) (failure stream) "" 0)
    (record CallReleaseLock).
End Send.
End ChatSessionTs.

(** ** src/federation.ts: the inline [ChatSession.send], which also writes
    the prompt and the reply to the console *)
Module FederationTs.
Section Send.
Context {H : Type}.

Fixpoint read_loop (onChunk : option (Callback H)) (values : list string)
    (failure : option Thrown) (reply : string) : M H string :=
  match values with
  | [] =>
      record CallRead ;;
      match failure with
      | None => ret reply
      | Some e => throw e
      end
  | value :: rest =>
      record CallRead ;;
      let reply := reply +:+ value in
      notify onChunk value ;;
      read_loop onChunk rest failure reply
  end.

Definition send (global : option LanguageModelClass) (prompt : string)
    (onChunk : option (Callback H)) : M H string :=
  record (CallConsoleLog ["[ChatSession] Sending prompt to Chrome built-in AI:"; prompt]) ;;
  '(LM, s) ← provision global;
  stream ← call (CallPromptStreaming s prompt) (promptStreaming LM s prompt);
  record CallGetReader ;;
  reply ← try_finally
    (read_loop onChunk (items stream) (failure stream) "")
    (record CallReleaseLock);
  record (CallConsoleLog ["[ChatSession] Got reply from Chrome built-in AI:"; reply]) ;;
  ret reply.
End Send.
End FederationTs.

(** ** src/kernel.ts: [BuiltInChatKernel] *)

(** What the handlers use of [BaseKernel] (@jupyterlite/kernel): the
    execution counter and the parent header the host maintains, and the two
    publishing operations, modelled by the messages they put on the output
    channel. *)
Record Header : Type := mkHeader { msg_id : string }.

Inductive Published : Type :=
| PubStream (name text : string) (parent : option Header)
| PubExecuteError (ename evalue : string) (traceback : list string) (parent : option Header).

Record BaseKernel : Type := mkKernel {
  executionCount : nat;
  parentHeader : option Header;
  published : list Published
}.

Inductive ExecuteReply : Type :=
| ExecuteOk (execution_count : nat) (payload : list JsValue) (user_expressions : Content)
| ExecuteError (execution_count : nat) (ename evalue : string) (traceback : list string).

Module KernelInfoReply.
Record language_info_t : Type := mkLanguageInfo {
  name : string; version : string; mimetype : string; file_extension : string }.
Record t : Type := mk {
  status : string; protocol_version : string; implementation : string;
  implementation_version : string; language_info : language_info_t;
  banner : string; help_links : list JsValue }.
End KernelInfoReply.

Module CompleteReply.
Record t : Type := mk {
  status : string; matches : list string;
  cursor_start : JsValue; cursor_end : JsValue; metadata : Content }.
End CompleteReply.

Module InspectReply.
Record t : Type := mk {
  status : string; found : bool; data : Content; metadata : Content }.
End InspectReply.

Module IsCompleteReply.
Record t : Type := mk { status : string; indent : string }.
End IsCompleteReply.

Module CommInfoReply.
Record t : Type := mk { status : string; comms : Content }.
End CommInfoReply.

Module HistoryReply.
Record t : Type := mk { status : string; history : list JsValue }.
End HistoryReply.

Module ShutdownReply.
Record t : Type := mk { status : string; restart : bool }.
End ShutdownReply.

Module BuiltInChatKernel.

(** [this.stream({ name, text }, parentHeader)] *)
Definition stream (name text : string) (parent : option Header) (k : BaseKernel) : BaseKernel :=
  mkKernel (executionCount k) (parentHeader k) (published k ++ [PubStream name text parent]).

(** [this.publishExecuteError({ ename, evalue, traceback }, parentHeader)] *)
Definition publishExecuteError (ename evalue : string) (traceback : list string)
    (parent : option Header) (k : BaseKernel) : BaseKernel :=
  mkKernel (executionCount k) (parentHeader k)
    (published k ++ [PubExecuteError ename evalue traceback parent]).

(** A step of the kernel itself, and a read of one of its fields. *)
Definition this_do (f : BaseKernel -> BaseKernel) : M BaseKernel unit :=
  fun w => (Returned tt, mkWorld (session w) (calls w) (f (host w))).

Definition this_get {A} (f : BaseKernel -> A) : M BaseKernel A :=
  fun w => (Returned (f (host w)), w).

(** [err?.message ?? String(err)] *)
Definition message_of (err : Thrown) : string :=
  match message err with
  | Some m => m
  | None => as_String err
  end.

(** The callback [executeRequest] hands to [send]. *)
Definition on_chunk : Callback BaseKernel :=
  fun chunk k => (Returned tt, stream "stdout" chunk (parentHeader k) k).

Definition executeRequest (global : option LanguageModelClass) (content : Content)
  : M BaseKernel ExecuteReply :=
  let code := to_String (nullish (get_prop content "code") (JsString "")) in
  try_catch
    (KernelTs.send global code (Some on_chunk) ;;
     count ← this_get executionCount;
     ret (ExecuteOk count [] ∅))
    (fun err =>
       let message := message_of err in
       parent ← this_get parentHeader;
       this_do (publishExecuteError "Error" message [] parent) ;;
       count ← this_get executionCount;
       ret (ExecuteError count "Error" message [])).

Definition kernelInfoRequest : KernelInfoReply.t :=
  KernelInfoReply.mk "ok" "5.3" "built-in-chat-kernel" "0.2.6dev6"
    (KernelInfoReply.mkLanguageInfo "markdown" "0.0.0" "text/markdown" ".md")
    "Chrome Built-in AI chat kernel" [].

Definition completeRequest (content : Content) : CompleteReply.t :=
  CompleteReply.mk "ok" []
    (nullish (get_prop content "cursor_pos") (JsNumber 0))
    (nullish (get_prop content "cursor_pos") (JsNumber 0))
    ∅.

Definition inspectRequest (_content : Content) : InspectReply.t :=
  InspectReply.mk "ok" false ∅ ∅.

Definition isCompleteRequest (_content : Content) : IsCompleteReply.t :=
  IsCompleteReply.mk "complete" "".

Definition commInfoRequest (_content : Content) : CommInfoReply.t :=
  CommInfoReply.mk "ok" ∅.

Definition historyRequest (_content : Content) : HistoryReply.t :=
  HistoryReply.mk "ok" [].

Definition shutdownRequest (_content : Content) : ShutdownReply.t :=
  ShutdownReply.mk "ok" false.

End BuiltInChatKernel.

(** [new ChatSession()]: no session yet, nothing called. *)
Definition new_ChatSession {H : Type} (h : H) : World H := mkWorld None [] h.

(** ** src/ChatSession.ts, the versions on [window.ai.languageModel] and on
    [self.ai.languageModel]

    The two differ in the global they read and in what their download
    monitor does with the progress; [send] is otherwise the same text.  The
    query [capabilities()] is recorded as the availability call, and each step
    of the [for await] loop as a read. *)
Module LegacyTs.

(** [capabilities.available] *)
Inductive Available : Type :=
| no
| after_download
| readily.

(** [window.ai.languageModel] (or [self.ai.languageModel]) during one call. *)
Record AiLanguageModel : Type := mkAi {
  capabilities : Outcome Available;
  create : bool -> Outcome LanguageModel;
  promptStreaming : LanguageModel -> string -> Outcome ReadableStream
}.

(** [capabilities.available === "after-download"] *)
Definition monitored (a : Available) : bool :=
  match a with
  | after_download => true
  | _ => false
  end.

Section Send.
Context {H : Type}.

(** The [for await (const chunk of stream)] loop. *)
Fixpoint for_await (onChunk : option (Callback H)) (chunks : list string)
    (failure : option Thrown) (reply : string) (previousLength : nat) : M H string :=
  match chunks with
  | [] =>
      record CallRead ;;
      match failure with
      | None => ret reply
      | Some e => throw e
      end
  | chunk :: rest =>
      record CallRead ;;
      let newContent := slice previousLength chunk in
      let previousLength := String.length chunk in
      let reply := chunk in
      notify onChunk newContent ;;
      for_await onChunk rest failure reply previousLength
  end.

Definition send (global : option AiLanguageModel) (prompt : string)
    (onChunk : option (Callback H)) : M H string :=
  match global with
  | None => throw (Error msg_unsupported)
  | Some ai =>
      available ← call CallAvailability (capabilities ai);
      match available with
      | no => throw (Error msg_not_available)
      | _ =>
          cur ← get_session;
          s ← match cur with
              | Some s => ret s
              | None =>
                  s ← call (CallCreate (monitored available))
                         (create ai (monitored available));
                  set_session s ;;
                  ret s
              end;
          stream ← call (CallPromptStreaming s prompt) (promptStreaming ai s prompt);
          for_await onChunk (items stream) (failure stream) "" 0
      end
  end.
End Send.
End LegacyTs.

(** ** src/ChatSession.ts, the version on @built-in-ai/core

    The relay holds [this.model], set once by the constructor, and no
    session.  [createSessionWithProgress] is recorded as a monitored create
    call, [streamText] as the streaming prompt of the model, and each step of
    the [for await] loop over [result.textStream] as a read. *)
Module BuiltInAiTs.

(** [this.model] during one call. *)
Record BuiltInAI : Type := mkModel {
  model : LanguageModel;
  availability : Outcome Availability;
  createSessionWithProgress : Outcome unit;
  streamText : string -> Outcome ReadableStream
}.

Section Send.
Context {H : Type}.

(** The [for await (const chunk of result.textStream)] loop. *)
Fixpoint for_await (onChunk : option (Callback H)) (chunks : list string)
    (failure : option Thrown) (reply : string) : M H string :=
  match chunks with
  | [] =>
      record CallRead ;;
      match failure with
      | None => ret reply
      | Some e => throw e
      end
  | chunk :: rest =>
      record CallRead ;;
      let reply := reply +:+ chunk in
      match onChunk with
      | Some f => invoke f chunk
      | None => ret tt
      end ;;
      for_await onChunk rest failure reply
  end.

Definition send (this_model : BuiltInAI) (prompt : string)
    (onChunk : option (Callback H)) : M H string :=
  a ← call CallAvailability (availability this_model);
  match a with
  | unavailable => throw (Error msg_unsupported)
  | _ =>
      (if needs_download a
       then call (CallCreate true) (createSessionWithProgress this_model)
       else ret tt) ;;
      result ← call (CallPromptStreaming (model this_model) prompt)
                 (streamText this_model prompt);
      for_await onChunk (items result) (failure result) ""
  end.
End Send.
End BuiltInAiTs.

(** ** src/federation.ts: [BuiltInChatKernel.executeRequest], on the inline
    relay *)
Module FederationKernel.

Definition executeRequest (global : option LanguageModelClass) (content : Content)
  : M BaseKernel ExecuteReply :=
  let code := to_String (nullish (get_prop content "code") (JsString "")) in
  try_catch
    (FederationTs.send global code (Some BuiltInChatKernel.on_chunk) ;;
     count ← BuiltInChatKernel.this_get executionCount;
     ret (ExecuteOk count [] ∅))
    (fun err =>
       let message := BuiltInChatKernel.message_of err in
       parent ← BuiltInChatKernel.this_get parentHeader;
       BuiltInChatKernel.this_do
         (BuiltInChatKernel.publishExecuteError "Error" message [] parent) ;;
       count ← BuiltInChatKernel.this_get executionCount;
       ret (ExecuteError count "Error" message [])).

End FederationKernel.

(** ** src/federation.ts: the shared scope and [importShared]

    An object is modelled by its own properties in the order of
    [Object.keys]; a package is looked up among the own properties of the
    scope (the one name the file asks for is "@jupyterlite/kernel").  The
    writes to the console are left out. *)
Module FederationContainer.

(** What [factory()] and the values behind it can be, as far as
    [importShared] looks: a thenable, with what awaiting it gives; a function
    of no argument, with what calling it gives; or any other value. *)
Inductive Settled : Type :=
| SValue (id : nat)
| SFunction (returns : Outcome Value)
with Value : Type :=
| VSettled (v : Settled)
| VThenable (settles : Outcome Settled).

(** An entry of a package under one version; [get] is [Some] when it is a
    function, with what calling it gives. *)
Record Version : Type := mkVersion { get : option (Outcome Value) }.

Abbreviation Versions := (list (string * Version)).
Abbreviation Scope := (list (string * Versions)).

(** [o[k]] on own properties. *)
Fixpoint own_prop {V : Type} (o : list (string * V)) (k : string) : option V :=
  match o with
  | [] => None
  | (k', v) :: rest => if bool_decide (k' = k) then Some v else own_prop rest k
  end.

(** [Object.keys(o)] *)
Definition keys {V : Type} (o : list (string * V)) : list string := map fst o.

(** [await v] *)
Definition await (v : Value) : Outcome Settled :=
  match v with
  | VSettled s => Returned s
  | VThenable settles => settles
  end.

(** [container.init(scope)] *)
Definition init (scope : Scope) (sharedScope : option Scope) : option Scope := Some scope.

(** [importShared(pkg)], on the module variable [sharedScope];
    [window_default] is [window.__webpack_share_scopes__.default], when there
    is one.  The value is what the caller's [await] gets. *)
Definition importShared (window_default : option Scope) (pkg : string)
    (sharedScope : option Scope) : Outcome Settled * option Scope :=
  let sharedScope :=
    match sharedScope with
    | Some scope => Some scope
    | None => window_default
    end in
  match sharedScope with
  | None =>
      (Threw (Error ("[built-in-chat] Shared scope not initialized when requesting " +:+ pkg)),
       sharedScope)
  | Some scope =>
      match own_prop scope pkg with
      | None =>
          (Threw (Error ("[built-in-chat] Shared module " +:+ pkg
                         +:+ " not found in shared scope. Available: "
                         +:+ String.concat "," (keys scope))),
           sharedScope)
      | Some versions =>
          match versions with
          | [] =>
              (Threw (Error ("[built-in-chat] No versions available for " +:+ pkg)),
               sharedScope)
          | (_, version) :: _ =>
              match get version with
              | None =>
                  (Threw (Error ("[built-in-chat] Module " +:+ pkg
                                 +:+ " has no factory function")),
                   sharedScope)
              | Some factory =>
                  (match factory with
                   | Threw e => Threw e
                   | Returned result =>
                       match await result with
                       | Threw e => Threw e
                       | Returned (SFunction returns) =>
                           match returns with
                           | Threw e => Threw e
                           | Returned result => await result
                           end
                       | Returned result => Returned result
                       end
                   end,
                   sharedScope)
              end
          end
      end
  end.

End FederationContainer.

(** ** Observations on a run *)

(** The calls made between two worlds of one run. *)
Definition calls_since {H : Type} (w w' : World H) : list Call :=
  drop (length (calls w)) (calls w').

(** The messages published between two states of the kernel. *)
Definition published_since (k k' : BaseKernel) : list Published :=
  drop (length (published k)) (published k').

Definition chunk_of (c : Call) : option string :=
  match c with
  | CallOnChunk chunk => Some chunk
  | _ => None
  end.

(** The arguments [onChunk] was called with, in call order. *)
Definition chunks_of (cs : list Call) : list string := omap chunk_of cs.

Definition is_create (c : Call) : bool :=
  match c with
  | CallCreate _ => true
  | _ => false
  end.

(** How many times [LanguageModel.create] was called. *)
Definition creates (cs : list Call) : nat := length (filter is_create cs).

Definition prompted_of (c : Call) : option (LanguageModel * string) :=
  match c with
  | CallPromptStreaming s input => Some (s, input)
  | _ => None
  end.

(** The sessions prompted and the prompts they were given. *)
Definition prompted (cs : list Call) : list (LanguageModel * string) := omap prompted_of cs.

Definition is_console (c : Call) : bool :=
  match c with
  | CallConsoleLog _ => true
  | _ => false
  end.

(** The calls other than those on the console. *)
Definition silent (cs : list Call) : list Call := filter (fun c => negb (is_console c)) cs.

(** Concatenation of a list of strings, in order. *)
Definition join (l : list string) : string := foldr String.append "" l.

(** The stream [send] reads in world [w], when it gets that far. *)
Definition stream_of {H : Type} (global : option LanguageModelClass) (prompt : string)
    (w : World H) : option ReadableStream :=
  match provision global w with
  | (Returned (LM, s), _) =>
      match promptStreaming LM s prompt with
      | Returned stream => Some stream
      | Threw _ => None
      end
  | (Threw _, _) => None
  end.

(** [prefix p v]: the value [v] starts with [p]. *)
Fixpoint prefix (p v : string) : bool :=
  match p, v with
  | EmptyString, _ => true
  | String a p', String b v' => bool_decide (a = b) && prefix p' v'
  | String _ _, EmptyString => false
  end.

(** A stream of reply-so-far snapshots: every value starts with the one
    before it. *)
Fixpoint snapshots (previous : string) (values : list string) : bool :=
  match values with
  | [] => true
  | value :: rest => prefix previous value && snapshots value rest
  end.

Definition execute_error_of (p : Published) : option (string * string * list string) :=
  match p with
  | PubExecuteError ename evalue traceback _ => Some (ename, evalue, traceback)
  | PubStream _ _ _ => None
  end.

(** The execute-error events among published messages. *)
Definition execute_errors (ps : list Published) : list (string * string * list string) :=
  omap execute_error_of ps.

(** The stdout messages for the values of a stream: one for each value that
    is not empty, in order. *)
Definition stdout_events (parent : option Header) (values : list string) : list Published :=
  map (fun v => PubStream "stdout" v parent) (filter truthy values).

(** [const code = String(content.code ?? "")] *)
Definition code_of (content : Content) : string :=
  to_String (nullish (get_prop content "code") (JsString "")).

(** The calls of the reading loop: reads and calls of [onChunk]. *)
Definition loop_call (c : Call) : bool :=
  match c with
  | CallRead | CallOnChunk _ => true
  | _ => false
  end.

(** The calls of the prologue: the availability query and [create]. *)
Definition prologue_call (c : Call) : bool :=
  match c with
  | CallAvailability | CallCreate _ => true
  | _ => false
  end.

(** Taking and releasing the lock of a stream reader. *)
Definition reader_call (c : Call) : bool :=
  match c with
  | CallGetReader | CallReleaseLock => true
  | _ => false
  end.

(** The outcomes of the shared prologue, case by case. *)
Inductive Provisioned {H : Type} (global : option LanguageModelClass) (w : World H)
  : Outcome (LanguageModelClass * LanguageModel) -> World H -> Prop :=
| P_undefined :
    global = None ->
    Provisioned global w (Threw (Error msg_unsupported)) w
| P_availability_threw LM e :
    global = Some LM -> availability LM = Threw e ->
    Provisioned global w (Threw e)
      (mkWorld (session w) (calls w ++ [CallAvailability]) (host w))
| P_unavailable LM :
    global = Some LM -> availability LM = Returned unavailable ->
    Provisioned global w (Threw (Error msg_not_available))
      (mkWorld (session w) (calls w ++ [CallAvailability]) (host w))
| P_reused LM a s :
    global = Some LM -> availability LM = Returned a -> a <> unavailable ->
    session w = Some s ->
    Provisioned global w (Returned (LM, s))
      (mkWorld (session w) (calls w ++ [CallAvailability]) (host w))
| P_create_threw LM a e :
    global = Some LM -> availability LM = Returned a -> a <> unavailable ->
    session w = None -> create LM (needs_download a) = Threw e ->
    Provisioned global w (Threw e)
      (mkWorld None (calls w ++ [CallAvailability; CallCreate (needs_download a)]) (host w))
| P_created LM a s :
    global = Some LM -> availability LM = Returned a -> a <> unavailable ->
    session w = None -> create LM (needs_download a) = Returned s ->
    Provisioned global w (Returned (LM, s))
      (mkWorld (Some s) (calls w ++ [CallAvailability; CallCreate (needs_download a)]) (host w)).

(** Two worlds with the same session and host, whatever was called before;
    and two runs from such worlds that end alike and make the same calls. *)
Definition alike {H : Type} (w1 w2 : World H) : Prop :=
  session w1 = session w2 /\ host w1 = host w2.

Definition same_run {H A : Type} (w1 w2 : World H) (a b : Outcome A * World H) : Prop :=
  a.1 = b.1 /\ alike a.2 b.2 /\
  exists evs, calls a.2 = calls w1 ++ evs /\ calls b.2 = calls w2 ++ evs.

(** ** Sample inputs *)

(** A capability that is ready, hands out session 1 and streams [values]. *)
Definition ready_class (values : list string) (failure : option Thrown) : LanguageModelClass :=
  mkClass (Returned available) (fun _ => Returned (mkLanguageModel 1))
    (fun _ _ => Returned (mkStream values failure)).

(** A callback that keeps what it is given. *)
Definition collect : Callback (list string) :=
  fun chunk seen => (Returned tt, seen ++ [chunk]).

(** A callback that throws on the chunk "bad". *)
Definition picky : Callback (list string) :=
  fun chunk seen =>
    if bool_decide (chunk = "bad") then (Threw (Error "no"), seen)
    else (Returned tt, seen ++ [chunk]).

Definition create_flag (c : Call) : option bool :=
  match c with
  | CallCreate monitored => Some monitored
  | _ => None
  end.

(** Whether a monitor was passed, for each call of [create], in order. *)
Definition create_flags (cs : list Call) : list bool := omap create_flag cs.

(** A request to the relay of src/kernel.ts: the capability at that time, the
    prompt and the callback; and requests served one after the other. *)
Record Request (H : Type) : Type := mkRequest {
  req_global : option LanguageModelClass;
  req_prompt : string;
  req_onChunk : option (Callback H)
}.
Arguments mkRequest {H} _ _ _.
Arguments req_global {H} _.
Arguments req_prompt {H} _.
Arguments req_onChunk {H} _.

Fixpoint send_many {H : Type} (requests : list (Request H)) (w : World H) : World H :=
  match requests with
  | [] => w
  | r :: rest =>
      send_many rest (KernelTs.send (req_global r) (req_prompt r) (req_onChunk r) w).2
  end.

(** The last value of a stream, the empty string when it has none. *)
Definition last_value (values : list string) : string := default "" (last values).

Definition stdout_text (p : Published) : option string :=
  match p with
  | PubStream _ text _ => Some text
  | PubExecuteError _ _ _ _ => None
  end.

(** The texts of the stream messages published, in order. *)
Definition stream_texts (ps : list Published) : list string := omap stdout_text ps.



(** A model of @built-in-ai/core that streams [values] and reports [a]. *)
Definition streaming_model (a : Availability) (values : list string)
    (failure : option Thrown) : BuiltInAiTs.BuiltInAI :=
  BuiltInAiTs.mkModel (mkLanguageModel 1) (Returned a) (Returned tt)
    (fun _ => Returned (mkStream values failure)).

(** [window.ai.languageModel], ready, streaming [values]. *)
Definition ready_ai (values : list string) (failure : option Thrown)
  : LegacyTs.AiLanguageModel :=
  LegacyTs.mkAi (Returned LegacyTs.readily) (fun _ => Returned (mkLanguageModel 1))
    (fun _ _ => Returned (mkStream values failure)).

(** A callback that is absent or never throws. *)
Definition quiet {H : Type} (onChunk : option (Callback H)) : Prop :=
  match onChunk with
  | None => True
  | Some f => forall chunk h, (f chunk h).1 = Returned tt
  end.

(** * Properties *)

(** ** Strings *)

Lemma append_cons (a : Ascii.ascii) (s t : string) :
  String a s +:+ t = String a (s +:+ t).
Proof. reflexivity. Qed.

Lemma append_nil_l (s : string) : "" +:+ s = s.
Proof. reflexivity. Qed.

Lemma append_nil_r (s : string) : s +:+ "" = s.
Proof. induction s as [|a s IH]; [done |]. by rewrite append_cons, IH. Qed.

Lemma append_assoc (s t u : string) : (s +:+ t) +:+ u = s +:+ t +:+ u.
Proof. induction s as [|a s IH]; [done |]. by rewrite !append_cons, IH. Qed.

Lemma truthy_false (s : string) : truthy s = false -> s = "".
Proof. by destruct s. Qed.

Lemma slice_append (p t : string) : slice (String.length p) (p +:+ t) = t.
Proof. induction p as [|a p IH]; [by destruct t |]. by rewrite append_cons. Qed.

Lemma prefix_slice (p v : string) :
  prefix p v = true -> v = p +:+ slice (String.length p) v.
Proof.
  revert v. induction p as [|a p IH]; intros v Hp.
  - by destruct v.
  - destruct v as [|b v]; [done |]. simpl in Hp.
    apply andb_prop in Hp as [Hab Hp]. apply bool_decide_eq_true in Hab.
    subst b. rewrite append_cons. simpl. f_equal. by apply IH.
Qed.

(** ** Observations *)

Lemma calls_since_app {H : Type} (w w' : World H) (evs : list Call) :
  calls w' = calls w ++ evs -> calls_since w w' = evs.
Proof. unfold calls_since. intros ->. apply drop_app_length. Qed.

Lemma chunks_of_app (xs ys : list Call) :
  chunks_of (xs ++ ys) = chunks_of xs ++ chunks_of ys.
Proof. apply omap_app. Qed.

Lemma join_app (xs ys : list string) : join (xs ++ ys) = join xs +:+ join ys.
Proof.
  induction xs as [|x xs IH]; [done |].
  change (x +:+ join (xs ++ ys) = (x +:+ join xs) +:+ join ys).
  by rewrite IH, append_assoc.
Qed.

(** ** The monad, step by step *)

Ltac run :=
  unfold mbind, M_bind, bind, ret, throw, record, call, get_session,
    set_session, try_finally, try_catch in *; simpl in *.

Lemma provision_cases {H : Type} (global : option LanguageModelClass) (w : World H) :
  Provisioned global w (provision global w).1 (provision global w).2.
Proof.
  destruct global as [LM|]; [| by apply P_undefined].
  unfold provision. run.
  destruct (availability LM) as [a|e] eqn:Ha; simpl;
    [| by eapply P_availability_threw].
  assert (a = unavailable \/ a <> unavailable) as [->|Hne]
    by (destruct a; auto; right; discriminate).
  { by eapply P_unavailable. }
  assert (Hs : forall (k : M H (LanguageModelClass * LanguageModel)),
    match a with unavailable => throw (Error msg_not_available) | _ => k end = k)
    by (by destruct a).
  rewrite Hs. clear Hs. unfold ensure_session. run.
  destruct w as [[s|] cs h]; simpl.
  { by eapply (P_reused _ (mkWorld (Some s) cs h)). }
  destruct (create LM (needs_download a)) as [s|e] eqn:Hc; simpl;
    rewrite <- app_assoc; simpl.
  - by eapply (P_created _ (mkWorld None cs h)).
  - by eapply (P_create_threw _ (mkWorld None cs h)).
Qed.

(** [send] of src/kernel.ts, unfolded along its exits. *)
Lemma KernelTs_send_unfold {H : Type} (global : option LanguageModelClass) (prompt : string)
    (onChunk : option (Callback H)) (w : World H) :
  KernelTs.send global prompt onChunk w =
  match provision global w with
  | (Threw e, w0) => (Threw e, w0)
  | (Returned (LM, s), w0) =>
      match promptStreaming LM s prompt with
      | Threw e =>
          (Threw e, mkWorld (session w0) (calls w0 ++ [CallPromptStreaming s prompt]) (host w0))
      | Returned stream =>
          let rw := KernelTs.read_loop onChunk (items stream) (failure stream) ""
                      (mkWorld (session w0)
                         (calls w0 ++ [CallPromptStreaming s prompt; CallGetReader]) (host w0)) in
          (rw.1, mkWorld (session rw.2) (calls rw.2 ++ [CallReleaseLock]) (host rw.2))
      end
  end.
Proof.
  unfold KernelTs.send. run.
  destruct (provision global w) as [[[LM s]|e] w0]; [| done].
  destruct (promptStreaming LM s prompt) as [stream|e]; [| done].
  rewrite <- app_assoc. simpl.
  by destruct (KernelTs.read_loop _ _ _ _ _) as [r w1].
Qed.

Lemma ChatSessionTs_send_unfold {H : Type} (global : option LanguageModelClass)
    (prompt : string) (onChunk : option (Callback H)) (w : World H) :
  ChatSessionTs.send global prompt onChunk w =
  match provision global w with
  | (Threw e, w0) => (Threw e, w0)
  | (Returned (LM, s), w0) =>
      match promptStreaming LM s prompt with
      | Threw e =>
          (Threw e, mkWorld (session w0) (calls w0 ++ [CallPromptStreaming s prompt]) (host w0))
      | Returned stream =>
          let rw := ChatSessionTs.read_loop onChunk (items stream) (failure stream) "" 0
                      (mkWorld (session w0)
                         (calls w0 ++ [CallPromptStreaming s prompt; CallGetReader]) (host w0)) in
          (rw.1, mkWorld (session rw.2) (calls rw.2 ++ [CallReleaseLock]) (host rw.2))
      end
  end.
Proof.
  unfold ChatSessionTs.send. run.
  destruct (provision global w) as [[[LM s]|e] w0]; [| done].
  destruct (promptStreaming LM s prompt) as [stream|e]; [| done].
  rewrite <- app_assoc. simpl.
  by destruct (ChatSessionTs.read_loop _ _ _ _ _ _) as [r w1].
Qed.

(** One step of [notify]: it leaves the session alone and calls [onChunk] at
    most once, with the chunk, and only when the chunk is not empty. *)
Lemma notify_step {H : Type} (onChunk : option (Callback H)) (chunk : string) (w : World H) :
  session (notify onChunk chunk w).2 = session w /\
  (calls (notify onChunk chunk w).2 = calls w \/
   (truthy chunk = true /\ calls (notify onChunk chunk w).2 = calls w ++ [CallOnChunk chunk])).
Proof.
  unfold notify. destruct onChunk as [f|]; [| by split; [| left]].
  destruct (truthy chunk) eqn:Ht; [| by split; [| left]].
  unfold invoke. destruct (f chunk (host w)) as [r h']. simpl. split; [done |]. by right.
Qed.

(** With a callback, [notify] calls it exactly on the non-empty chunks. *)
Lemma notify_chunks {H : Type} (f : Callback H) (chunk : string) (w : World H) :
  exists evs, calls (notify (Some f) chunk w).2 = calls w ++ evs /\
    join (chunks_of evs) = chunk.
Proof.
  unfold notify. destruct (truthy chunk) eqn:Ht.
  - unfold invoke. destruct (f chunk (host w)) as [r h']. simpl.
    exists [CallOnChunk chunk]. split; [done |]. apply append_nil_r.
  - exists []. simpl. rewrite app_nil_r. split; [done |].
    symmetry. by apply truthy_false.
Qed.

(** ** C1: what [onChunk] received, put together, is the reply *)

Lemma KernelTs_loop_reply {H : Type} (f : Callback H) (values : list string)
    (failure : option Thrown) (reply : string) (w w' : World H) (out : string) :
  KernelTs.read_loop (Some f) values failure reply w = (Returned out, w') ->
  exists evs, calls w' = calls w ++ evs /\ out = reply +:+ join (chunks_of evs).
Proof.
  revert reply w. induction values as [|value rest IH]; intros reply w Hrun.
  - simpl in Hrun. run. destruct failure; simplify_eq.
    exists [CallRead]. split; [done |]. by rewrite append_nil_r.
  - simpl in Hrun. run.
    set (w1 := mkWorld (session w) (calls w ++ [CallRead]) (host w)) in *.
    destruct (notify_chunks f value w1) as (evs1 & Hc1 & Hj1).
    destruct (notify (Some f) value w1) as [[[]|e] w2]; simpl in Hrun; [| done].
    apply IH in Hrun as (evs2 & Hc2 & ->). simpl in Hc1.
    exists ([CallRead] ++ evs1 ++ evs2). split.
    + rewrite Hc2, Hc1. unfold w1. simpl. by rewrite <- !app_assoc.
    + rewrite !chunks_of_app, !join_app, Hj1. simpl. by rewrite append_assoc.
Qed.

Lemma ChatSessionTs_loop_reply {H : Type} (f : Callback H) (values : list string)
    (failure : option Thrown) (reply : string) (w w' : World H) (out : string) :
  snapshots reply values = true ->
  ChatSessionTs.read_loop (Some f) values failure reply (String.length reply) w
    = (Returned out, w') ->
  exists evs, calls w' = calls w ++ evs /\ out = reply +:+ join (chunks_of evs).
Proof.
  revert reply w. induction values as [|value rest IH]; intros reply w Hsnap Hrun.
  - simpl in Hrun. run. destruct failure; simplify_eq.
    exists [CallRead]. split; [done |]. by rewrite append_nil_r.
  - simpl in Hsnap. apply andb_prop in Hsnap as [Hpre Hsnap].
    simpl in Hrun. run.
    set (w1 := mkWorld (session w) (calls w ++ [CallRead]) (host w)) in *.
    destruct (notify_chunks f (slice (String.length reply) value) w1) as (evs1 & Hc1 & Hj1).
    destruct (notify (Some f) _ w1) as [[[]|e] w2]; simpl in Hrun; [| done].
    apply IH in Hrun as (evs2 & Hc2 & ->); [| done]. simpl in Hc1.
    exists ([CallRead] ++ evs1 ++ evs2). split.
    + rewrite Hc2, Hc1. unfold w1. simpl. by rewrite <- !app_assoc.
    + rewrite !chunks_of_app, !join_app, Hj1. simpl.
      rewrite append_nil_l, <- append_assoc. f_equal. by apply prefix_slice.
Qed.

(** The calls of the prologue are not calls of [onChunk]. *)
Lemma provision_calls {H : Type} (global : option LanguageModelClass) (w : World H) :
  exists evs, calls (provision global w).2 = calls w ++ evs /\ chunks_of evs = [].
Proof.
  destruct (provision_cases global w); simpl;
    first [ by exists []; rewrite app_nil_r | by eexists ].
Qed.

(** C1 (corrected form).  Whenever [send] returns and a callback was given, the
    strings passed to [onChunk], concatenated in call order, are the string
    returned: for [send] of src/kernel.ts on every stream, and for the
    snapshot-slicing [send] of src/ChatSession.ts on every stream of
    reply-so-far snapshots (each value starting with the one before). *)
Theorem C1_chunks_concatenate_to_reply {H : Type} (global : option LanguageModelClass)
    (prompt : string) (f : Callback H) (w : World H) :
  (forall reply w',
     KernelTs.send global prompt (Some f) w = (Returned reply, w') ->
     join (chunks_of (calls_since w w')) = reply) /\
  (forall stream reply w',
     stream_of global prompt w = Some stream ->
     snapshots "" (items stream) = true ->
     ChatSessionTs.send global prompt (Some f) w = (Returned reply, w') ->
     join (chunks_of (calls_since w w')) = reply).
Proof.
  split.
  - intros reply w' Hsend. rewrite KernelTs_send_unfold in Hsend.
    destruct (provision_calls global w) as (evs0 & Hc0 & Hk0).
    destruct (provision global w) as [[[LM s]|e] w0]; [| done].
    destruct (promptStreaming LM s prompt) as [stream|e]; [| done].
    simpl in Hsend, Hc0.
    destruct (KernelTs.read_loop _ _ _ _ _) as [r w1] eqn:Hloop.
    simpl in Hsend. simplify_eq.
    apply KernelTs_loop_reply in Hloop as (evs & Hc & ->). simpl in Hc.
    rewrite (calls_since_app w _
      (evs0 ++ [CallPromptStreaming s prompt; CallGetReader] ++ evs ++ [CallReleaseLock])).
    + rewrite !chunks_of_app, Hk0, !join_app. simpl. by rewrite append_nil_r.
    + simpl. rewrite Hc, Hc0. by rewrite <- !app_assoc.
  - intros stream reply w' Hstream Hsnap Hsend.
    rewrite ChatSessionTs_send_unfold in Hsend. unfold stream_of in Hstream.
    destruct (provision_calls global w) as (evs0 & Hc0 & Hk0).
    destruct (provision global w) as [[[LM s]|e] w0]; [| done].
    destruct (promptStreaming LM s prompt) as [stream'|e]; [| done].
    simplify_eq. simpl in Hsend, Hc0.
    destruct (ChatSessionTs.read_loop _ _ _ _ _ _) as [r w1] eqn:Hloop.
    simpl in Hsend. simplify_eq.
    apply (ChatSessionTs_loop_reply f _ _ "") in Hloop as (evs & Hc & ->); [| done].
    simpl in Hc.
    rewrite (calls_since_app w _
      (evs0 ++ [CallPromptStreaming s prompt; CallGetReader] ++ evs ++ [CallReleaseLock])).
    + rewrite !chunks_of_app, Hk0, !join_app. simpl. by rewrite append_nil_r.
    + simpl. rewrite Hc, Hc0. by rewrite <- !app_assoc.
Qed.

(** Both relays on "Hello": as deltas for the first, as snapshots for the
    second. *)
Lemma C1_chunks_concatenate_to_reply_witness :
  (exists w',
     KernelTs.send (Some (ready_class ["Hel"; ""; "lo"] None)) "hi" (Some collect)
       (new_ChatSession []) = (Returned "Hello", w') /\
     join (chunks_of (calls_since (new_ChatSession []) w')) = "Hello") /\
  (exists w',
     ChatSessionTs.send (Some (ready_class ["Hel"; "Hel"; "Hello"] None)) "hi" (Some collect)
       (new_ChatSession []) = (Returned "Hello", w') /\
     join (chunks_of (calls_since (new_ChatSession []) w')) = "Hello").
Proof.
  split.
  - eexists. split; [vm_compute; reflexivity |].
    eapply (proj1 (C1_chunks_concatenate_to_reply
      (Some (ready_class ["Hel"; ""; "lo"] None)) "hi" collect (new_ChatSession []))).
    vm_compute; reflexivity.
  - eexists. split; [vm_compute; reflexivity |].
    eapply (proj2 (C1_chunks_concatenate_to_reply
      (Some (ready_class ["Hel"; "Hel"; "Hello"] None)) "hi" collect (new_ChatSession []))
      (mkStream ["Hel"; "Hel"; "Hello"] None)).
    + vm_compute; reflexivity.
    + vm_compute; reflexivity.
    + vm_compute; reflexivity.
Defined.

(** C1 as stated fails for the snapshot-slicing [send] of src/ChatSession.ts
    on a stream of true deltas: on the deltas "ab", "cd" it returns "cd"
    after a single call [onChunk("ab")]. *)
Lemma C1_counterexample_delta_stream :
  exists w',
    ChatSessionTs.send (Some (ready_class ["ab"; "cd"] None)) "hi" (Some collect)
      (new_ChatSession []) = (Returned "cd", w') /\
    chunks_of (calls_since (new_ChatSession []) w') = ["ab"] /\
    join (chunks_of (calls_since (new_ChatSession []) w')) <> "cd".
Proof.
  eexists. split; [vm_compute; reflexivity |].
  split; [vm_compute; reflexivity |]. vm_compute. discriminate.
Qed.

(** ** The calls of the reading loop *)

Lemma notify_loop_calls {H : Type} (onChunk : option (Callback H)) (chunk : string)
    (w : World H) :
  exists evs, calls (notify onChunk chunk w).2 = calls w ++ evs /\
    session (notify onChunk chunk w).2 = session w /\ Forall loop_call evs.
Proof.
  destruct (notify_step onChunk chunk w) as [Hs [Hc|[_ Hc]]].
  - exists []. by rewrite app_nil_r.
  - exists [CallOnChunk chunk]. repeat split; [done | done |]. by repeat constructor.
Qed.

Lemma KernelTs_loop_calls {H : Type} (onChunk : option (Callback H)) (values : list string)
    (failure : option Thrown) (reply : string) (w : World H) :
  exists evs,
    calls (KernelTs.read_loop onChunk values failure reply w).2 = calls w ++ evs /\
    session (KernelTs.read_loop onChunk values failure reply w).2 = session w /\
    Forall loop_call evs.
Proof.
  revert reply w. induction values as [|value rest IH]; intros reply w.
  - exists [CallRead]. simpl. run.
    destruct failure; simpl; repeat split; by repeat constructor.
  - simpl. run.
    set (w1 := mkWorld (session w) (calls w ++ [CallRead]) (host w)).
    destruct (notify_loop_calls onChunk value w1) as (evs1 & Hc1 & Hs1 & Hf1).
    destruct (notify onChunk value w1) as [[[]|e] w2]; simpl in *.
    + destruct (IH (reply +:+ value) w2) as (evs2 & Hc2 & Hs2 & Hf2).
      exists ([CallRead] ++ evs1 ++ evs2). rewrite Hc2, Hs2, Hc1, Hs1.
      repeat split; [by rewrite <- !app_assoc |].
      apply Forall_app; split; [by repeat constructor | by apply Forall_app].
    + exists ([CallRead] ++ evs1). rewrite Hc1, Hs1.
      repeat split; [by rewrite <- !app_assoc |].
      apply Forall_app; split; [by repeat constructor | done].
Qed.

Lemma ChatSessionTs_loop_calls {H : Type} (onChunk : option (Callback H))
    (values : list string) (failure : option Thrown) (reply : string) (n : nat)
    (w : World H) :
  exists evs,
    calls (ChatSessionTs.read_loop onChunk values failure reply n w).2 = calls w ++ evs /\
    session (ChatSessionTs.read_loop onChunk values failure reply n w).2 = session w /\
    Forall loop_call evs.
Proof.
  revert reply n w. induction values as [|value rest IH]; intros reply n w.
  - exists [CallRead]. simpl. run.
    destruct failure; simpl; repeat split; by repeat constructor.
  - simpl. run.
    set (w1 := mkWorld (session w) (calls w ++ [CallRead]) (host w)).
    destruct (notify_loop_calls onChunk (slice n value) w1) as (evs1 & Hc1 & Hs1 & Hf1).
    destruct (notify onChunk (slice n value) w1) as [[[]|e] w2]; simpl in *.
    + destruct (IH value (String.length value) w2) as (evs2 & Hc2 & Hs2 & Hf2).
      exists ([CallRead] ++ evs1 ++ evs2). rewrite Hc2, Hs2, Hc1, Hs1.
      repeat split; [by rewrite <- !app_assoc |].
      apply Forall_app; split; [by repeat constructor | by apply Forall_app].
    + exists ([CallRead] ++ evs1). rewrite Hc1, Hs1.
      repeat split; [by rewrite <- !app_assoc |].
      apply Forall_app; split; [by repeat constructor | done].
Qed.

Lemma creates_app (xs ys : list Call) : creates (xs ++ ys) = creates xs + creates ys.
Proof. unfold creates. by rewrite filter_app, length_app. Qed.

Lemma prompted_app (xs ys : list Call) : prompted (xs ++ ys) = prompted xs ++ prompted ys.
Proof. apply omap_app. Qed.

Lemma loop_calls_creates (evs : list Call) : Forall loop_call evs -> creates evs = 0.
Proof.
  induction 1 as [|c evs Hc _ IH]; [done |].
  change (c :: evs) with ([c] ++ evs). rewrite creates_app, IH. by destruct c.
Qed.

Lemma loop_calls_prompted (evs : list Call) : Forall loop_call evs -> prompted evs = [].
Proof.
  induction 1 as [|c evs Hc _ IH]; [done |].
  change (c :: evs) with ([c] ++ evs). rewrite prompted_app, IH. by destruct c.
Qed.

Ltac provision_inv global w :=
  let Hp := fresh "Hp" in
  let r0 := fresh "r0" in
  let w0 := fresh "w0" in
  pose proof (provision_cases global w) as Hp;
  destruct (provision global w) as [r0 w0]; simpl in Hp;
  destruct Hp as [Hg | LM e Hg Ha | LM Hg Ha | LM a s Hg Ha Hne Hs
                 | LM a e Hg Ha Hne Hs Hcr | LM a s Hg Ha Hne Hs Hcr];
  simpl in *.

(** ** C2 and C3: the session field *)

(** What one [send] does to the session field and how often it creates. *)
Lemma KernelTs_send_session {H : Type} (global : option LanguageModelClass) (prompt : string)
    (onChunk : option (Callback H)) (w : World H) :
  exists evs,
    calls (KernelTs.send global prompt onChunk w).2 = calls w ++ evs /\
    match session w with
    | Some s =>
        session (KernelTs.send global prompt onChunk w).2 = Some s /\
        creates evs = 0 /\ Forall (fun x => x.1 = s) (prompted evs)
    | None =>
        forall reply, (KernelTs.send global prompt onChunk w).1 = Returned reply ->
          exists s, session (KernelTs.send global prompt onChunk w).2 = Some s /\
            creates evs = 1
    end.
Proof.
  rewrite KernelTs_send_unfold.
  provision_inv global w.
  - exists []. rewrite app_nil_r. split; [done |]. by destruct (session w).
  - eexists. split; [done |]. by destruct (session w).
  - eexists. split; [done |]. by destruct (session w).
  - destruct (promptStreaming LM s prompt) as [stream|e]; simpl.
    + match goal with |- context [KernelTs.read_loop ?c ?v ?f ?r ?w1] =>
        destruct (KernelTs_loop_calls c v f r w1) as (evs & Hc & Hse & Hf) end.
      simpl in *. eexists. rewrite Hc, Hse. rewrite <- !app_assoc.
      split; [done |]. rewrite Hs. split; [done |].
      rewrite !app_assoc, !creates_app, !prompted_app.
      rewrite (loop_calls_creates evs), (loop_calls_prompted evs) by done.
      split; [done |]. simpl. by repeat constructor.
    + eexists. rewrite <- app_assoc. split; [done |]. rewrite Hs.
      split; [done |]. split; [done |]. simpl. by repeat constructor.
  - eexists. split; [done |]. by rewrite Hs.
  - destruct (promptStreaming LM s prompt) as [stream|e]; simpl.
    + match goal with |- context [KernelTs.read_loop ?c ?v ?f ?r ?w1] =>
        destruct (KernelTs_loop_calls c v f r w1) as (evs & Hc & Hse & Hf) end.
      simpl in *. eexists. rewrite Hc, Hse. rewrite <- !app_assoc.
      split; [done |]. rewrite Hs. intros reply _. exists s. split; [done |].
      rewrite !app_assoc, !creates_app.
      by rewrite (loop_calls_creates evs) by done.
    + eexists. rewrite <- app_assoc. split; [done |]. by rewrite Hs.
Qed.

(** C2.  On a new relay, when a first [send] returns and a second [send]
    follows, [LanguageModel.create] has been called exactly once over the two
    calls: the second call creates nothing, leaves the session field as the
    first call set it, and prompts that very session. *)
Theorem C2_session_created_once {H : Type} (h : H)
    (global1 global2 : option LanguageModelClass) (prompt1 prompt2 : string)
    (onChunk1 onChunk2 : option (Callback H)) (reply1 : string) (w1 : World H)
    (r2 : Outcome string) (w2 : World H) :
  KernelTs.send global1 prompt1 onChunk1 (new_ChatSession h) = (Returned reply1, w1) ->
  KernelTs.send global2 prompt2 onChunk2 w1 = (r2, w2) ->
  creates (calls w2) = 1 /\
  exists s, session w1 = Some s /\ session w2 = Some s /\
    creates (calls_since w1 w2) = 0 /\
    Forall (fun x => x.1 = s) (prompted (calls_since w1 w2)).
Proof.
  intros Hfirst Hsecond.
  destruct (KernelTs_send_session global1 prompt1 onChunk1 (new_ChatSession h))
    as (evs1 & Hc1 & Hnew).
  rewrite Hfirst in Hc1, Hnew. simpl in Hc1, Hnew.
  destruct (Hnew reply1 eq_refl) as (s & Hs1 & Hcr1).
  destruct (KernelTs_send_session global2 prompt2 onChunk2 w1) as (evs2 & Hc2 & Hold).
  rewrite Hsecond in Hc2, Hold. rewrite Hs1 in Hold. simpl in Hc2, Hold.
  destruct Hold as (Hs2 & Hcr2 & Hpr2).
  rewrite (calls_since_app w1 w2 evs2) by done.
  split; [| by exists s].
  rewrite Hc2, Hc1, creates_app. lia.
Qed.

(** Two prompts in a row on a ready capability. *)
Lemma C2_session_created_once_witness :
  exists w1 w2,
    KernelTs.send (Some (ready_class ["Hi"] None)) "one" (Some collect) (new_ChatSession [])
      = (Returned "Hi", w1) /\
    KernelTs.send (Some (ready_class ["Ho"] None)) "two" (Some collect) w1
      = (Returned "Ho", w2) /\
    creates (calls w2) = 1.
Proof.
  eexists. eexists. split; [vm_compute; reflexivity |].
  split; [vm_compute; reflexivity |].
  eapply (C2_session_created_once [] (Some (ready_class ["Hi"] None))
            (Some (ready_class ["Ho"] None)) "one" "two" (Some collect) (Some collect)).
  - vm_compute; reflexivity.
  - vm_compute; reflexivity.
Defined.

(** C3.  When the capability is absent, or reports "unavailable", [send]
    throws an [Error], makes no call to [LanguageModel.create] and leaves the
    session field as it was; on a relay without a session it stays unset. *)
Theorem C3_unavailable_fails_without_session {H : Type}
    (global : option LanguageModelClass) (prompt : string)
    (onChunk : option (Callback H)) (w : World H) :
  (global = None \/
   exists LM, global = Some LM /\ availability LM = Returned unavailable) ->
  exists w',
    KernelTs.send global prompt onChunk w
      = (Threw (Error (match global with
                       | Some _ => msg_not_available
                       | None => msg_unsupported
                       end)), w') /\
    session w' = session w /\
    (session w = None -> session w' = None) /\
    creates (calls_since w w') = 0 /\
    prompted (calls_since w w') = [].
Proof.
  intros Hcap. rewrite KernelTs_send_unfold.
  provision_inv global w; subst global.
  - exists w. unfold calls_since. rewrite drop_all. by repeat split.
  - destruct Hcap as [|(LM' & ? & ?)]; simplify_eq; congruence.
  - eexists. split; [done |]. simpl.
    by rewrite (calls_since_app w _ [CallAvailability]).
  - destruct Hcap as [|(LM' & ? & ?)]; simplify_eq; congruence.
  - destruct Hcap as [|(LM' & ? & ?)]; simplify_eq; congruence.
  - destruct Hcap as [|(LM' & ? & ?)]; simplify_eq; congruence.
Qed.

(** No capability at all, and a capability reporting "unavailable". *)
Lemma C3_unavailable_fails_without_session_witness :
  (exists w',
     KernelTs.send None "hi" (Some collect) (new_ChatSession [])
       = (Threw (Error msg_unsupported), w') /\ session w' = None) /\
  (exists w',
     KernelTs.send
       (Some (mkClass (Returned unavailable) (fun _ => Returned (mkLanguageModel 1))
                (fun _ _ => Returned (mkStream ["Hi"] None))))
       "hi" (Some collect) (new_ChatSession [])
       = (Threw (Error msg_not_available), w') /\ session w' = None).
Proof.
  split.
  - destruct (C3_unavailable_fails_without_session None "hi" (Some collect)
                (new_ChatSession [])) as (w' & Hrun & _ & Hnone & _).
    + by left.
    + exists w'. split; [exact Hrun | by apply Hnone].
  - destruct (C3_unavailable_fails_without_session
                (Some (mkClass (Returned unavailable) (fun _ => Returned (mkLanguageModel 1))
                         (fun _ _ => Returned (mkStream ["Hi"] None))))
                "hi" (Some collect) (new_ChatSession [])) as (w' & Hrun & _ & Hnone & _).
    + right. eexists. by split.
    + exists w'. split; [exact Hrun | by apply Hnone].
Defined.

(** ** C7 and C8: the empty stream, and the release of the reader *)

Lemma provision_prologue {H : Type} (global : option LanguageModelClass) (w : World H) :
  exists evs, calls (provision global w).2 = calls w ++ evs /\ Forall prologue_call evs.
Proof.
  destruct (provision_cases global w); simpl;
    first [ by exists []; rewrite app_nil_r | eexists; split; [done |]; by repeat constructor ].
Qed.

(** C7.  When the stream ends without having yielded a value, [send] returns
    the empty string and has not called [onChunk]. *)
Theorem C7_empty_stream_empty_reply {H : Type} (global : option LanguageModelClass)
    (prompt : string) (onChunk : option (Callback H)) (w : World H)
    (stream : ReadableStream) :
  stream_of global prompt w = Some stream ->
  items stream = [] ->
  failure stream = None ->
  exists w',
    KernelTs.send global prompt onChunk w = (Returned "", w') /\
    chunks_of (calls_since w w') = [] /\
    host w' = host w.
Proof.
  intros Hstream Hitems Hfail. rewrite KernelTs_send_unfold.
  unfold stream_of in Hstream.
  destruct (provision_calls global w) as (evs0 & Hc0 & Hk0).
  pose proof (provision_cases global w) as Hp.
  destruct (provision global w) as [[[LM s]|e] w0]; [| done].
  destruct (promptStreaming LM s prompt) as [stream'|e]; [| done].
  simplify_eq. rewrite Hitems, Hfail. simpl. run.
  eexists. split; [done |]. simpl in *. split.
  - rewrite (calls_since_app w _
      (evs0 ++ [CallPromptStreaming s prompt; CallGetReader; CallRead; CallReleaseLock])).
    + by rewrite chunks_of_app, Hk0.
    + simpl. rewrite Hc0. by rewrite <- !app_assoc.
  - by inversion Hp.
Qed.

(** A ready capability whose stream ends at once. *)
Lemma C7_empty_stream_empty_reply_witness :
  exists w',
    KernelTs.send (Some (ready_class [] None)) "hi" (Some collect) (new_ChatSession [])
      = (Returned "", w') /\
    chunks_of (calls_since (new_ChatSession []) w') = [] /\
    host w' = [].
Proof.
  apply (C7_empty_stream_empty_reply (Some (ready_class [] None)) "hi" (Some collect)
           (new_ChatSession []) (mkStream [] None)); reflexivity.
Defined.

Lemma prologue_not_reader (evs : list Call) :
  Forall prologue_call evs -> Forall (fun c => reader_call c = false) evs.
Proof. intros Hf. eapply Forall_impl; [exact Hf |]. by intros []. Qed.

(** C8.  Once [send] has a stream in hand, whether it then returns or
    throws (the stream failing, or [onChunk] throwing), the calls it made are:
    some calls that do not touch a reader, [getReader], reads and calls of
    [onChunk], and last of all one [releaseLock].  This holds for [send] of
    src/kernel.ts and for [send] of src/ChatSession.ts. *)
Theorem C8_reader_released_on_every_exit {H : Type} (global : option LanguageModelClass)
    (prompt : string) (onChunk : option (Callback H)) (w : World H)
    (stream : ReadableStream) :
  stream_of global prompt w = Some stream ->
  (exists before during,
     calls_since w (KernelTs.send global prompt onChunk w).2
       = before ++ [CallGetReader] ++ during ++ [CallReleaseLock] /\
     Forall (fun c => reader_call c = false) before /\
     Forall loop_call during) /\
  (exists before during,
     calls_since w (ChatSessionTs.send global prompt onChunk w).2
       = before ++ [CallGetReader] ++ during ++ [CallReleaseLock] /\
     Forall (fun c => reader_call c = false) before /\
     Forall loop_call during).
Proof.
  intros Hstream. unfold stream_of in Hstream.
  rewrite KernelTs_send_unfold, ChatSessionTs_send_unfold.
  destruct (provision_prologue global w) as (evs0 & Hc0 & Hf0).
  destruct (provision global w) as [[[LM s]|e] w0]; [| done].
  destruct (promptStreaming LM s prompt) as [stream'|e]; [| done].
  simplify_eq. simpl in Hc0. split.
  - match goal with |- context [KernelTs.read_loop ?c ?v ?f ?r ?w1] =>
      destruct (KernelTs_loop_calls c v f r w1) as (evs & Hc & _ & Hf) end.
    simpl in *. exists (evs0 ++ [CallPromptStreaming s prompt]), evs.
    split; [| split; [| done]].
    + apply calls_since_app. rewrite Hc, Hc0. by rewrite <- !app_assoc.
    + apply Forall_app. split; [by apply prologue_not_reader | by repeat constructor].
  - match goal with |- context [ChatSessionTs.read_loop ?c ?v ?f ?r ?n ?w1] =>
      destruct (ChatSessionTs_loop_calls c v f r n w1) as (evs & Hc & _ & Hf) end.
    simpl in *. exists (evs0 ++ [CallPromptStreaming s prompt]), evs.
    split; [| split; [| done]].
    + apply calls_since_app. rewrite Hc, Hc0. by rewrite <- !app_assoc.
    + apply Forall_app. split; [by apply prologue_not_reader | by repeat constructor].
Qed.

(** The callback throws on the second value; the reader is released. *)
Lemma C8_reader_released_on_every_exit_witness :
  (KernelTs.send (Some (ready_class ["ok"; "bad"; "more"] None)) "hi" (Some picky)
     (new_ChatSession [])).1 = Threw (Error "no") /\
  last (calls_since (new_ChatSession [])
          (KernelTs.send (Some (ready_class ["ok"; "bad"; "more"] None)) "hi" (Some picky)
             (new_ChatSession [])).2) = Some CallReleaseLock.
Proof.
  split; [vm_compute; reflexivity |].
  destruct (C8_reader_released_on_every_exit
              (Some (ready_class ["ok"; "bad"; "more"] None)) "hi" (Some picky)
              (new_ChatSession []) (mkStream ["ok"; "bad"; "more"] None) eq_refl)
    as [(before & during & -> & _) _].
  by rewrite !app_assoc, last_snoc.
Defined.

(** ** C9: the relay of src/federation.ts against the relay of src/kernel.ts *)

Lemma FederationTs_loop_eq {H : Type} (onChunk : option (Callback H)) (values : list string)
    (failure : option Thrown) (reply : string) (w : World H) :
  FederationTs.read_loop onChunk values failure reply w
  = KernelTs.read_loop onChunk values failure reply w.
Proof.
  revert reply w. induction values as [|value rest IH]; intros reply w; [done |].
  simpl. run. destruct (notify onChunk value _) as [[[]|e] w2]; [apply IH | done].
Qed.

Lemma provision_frame {H : Type} (global : option LanguageModelClass) (w1 w2 : World H) :
  alike w1 w2 -> same_run w1 w2 (provision global w1) (provision global w2).
Proof.
  intros [Hs Hh]. destruct w1 as [s1 cs1 h1], w2 as [s2 cs2 h2]. simpl in *. subst s2 h2.
  unfold same_run, alike, provision, ensure_session.
  destruct global as [LM|]; run; [| by repeat split; exists []; rewrite !app_nil_r].
  destruct (availability LM) as [a|e]; simpl; [| by repeat split; eexists].
  destruct a; simpl; try (by repeat split; eexists);
    (destruct s1 as [s|]; simpl; [by repeat split; eexists |]);
    (destruct (create LM _) as [s|e]; simpl;
     repeat split; eexists; by rewrite <- !app_assoc).
Qed.

Lemma notify_frame {H : Type} (onChunk : option (Callback H)) (chunk : string)
    (w1 w2 : World H) :
  alike w1 w2 -> same_run w1 w2 (notify onChunk chunk w1) (notify onChunk chunk w2).
Proof.
  intros [Hs Hh]. destruct w1 as [s1 cs1 h1], w2 as [s2 cs2 h2]. simpl in *. subst s2 h2.
  unfold same_run, alike, notify, invoke. simpl.
  destruct onChunk as [f|]; [| by repeat split; exists []; rewrite !app_nil_r].
  destruct (truthy chunk); [| by repeat split; exists []; rewrite !app_nil_r].
  simpl. destruct (f chunk h1) as [r h']. simpl. by repeat split; eexists.
Qed.

Lemma KernelTs_loop_frame {H : Type} (onChunk : option (Callback H)) (values : list string)
    (failure : option Thrown) (reply : string) (w1 w2 : World H) :
  alike w1 w2 ->
  same_run w1 w2 (KernelTs.read_loop onChunk values failure reply w1)
    (KernelTs.read_loop onChunk values failure reply w2).
Proof.
  revert reply w1 w2. induction values as [|value rest IH]; intros reply w1 w2 [Hs Hh].
  - simpl. run. unfold same_run, alike.
    destruct failure; simpl; rewrite Hs, Hh; by repeat split; eexists.
  - simpl. run.
    set (u1 := mkWorld (session w1) (calls w1 ++ [CallRead]) (host w1)).
    set (u2 := mkWorld (session w2) (calls w2 ++ [CallRead]) (host w2)).
    destruct (notify_frame onChunk value u1 u2) as (Hr & Hal & evs1 & Hc1 & Hc2);
      [by split |].
    destruct (notify onChunk value u1) as [r1 v1], (notify onChunk value u2) as [r2 v2].
    simpl in *. subst r2. destruct r1 as [[]|e].
    + destruct (IH (reply +:+ value) v1 v2 Hal) as (Hr' & Hal' & evs2 & Hd1 & Hd2).
      split; [done |]. split; [done |]. exists ([CallRead] ++ evs1 ++ evs2).
      rewrite Hd1, Hd2, Hc1, Hc2. by rewrite <- !app_assoc.
    + split; [done |]. split; [done |]. exists ([CallRead] ++ evs1).
      simpl. rewrite Hc1, Hc2. by rewrite <- !app_assoc.
Qed.

Lemma silent_app (xs ys : list Call) : silent (xs ++ ys) = silent xs ++ silent ys.
Proof. apply filter_app. Qed.

Lemma silent_prologue (evs : list Call) : Forall prologue_call evs -> silent evs = evs.
Proof.
  induction 1 as [|c evs Hc _ IH]; [done |].
  change (c :: evs) with ([c] ++ evs). rewrite silent_app, IH. by destruct c.
Qed.

Lemma silent_loop (evs : list Call) : Forall loop_call evs -> silent evs = evs.
Proof.
  induction 1 as [|c evs Hc _ IH]; [done |].
  change (c :: evs) with ([c] ++ evs). rewrite silent_app, IH. by destruct c.
Qed.

Lemma chunks_of_silent (evs : list Call) : chunks_of (silent evs) = chunks_of evs.
Proof.
  induction evs as [|c evs IH]; [done |].
  change (c :: evs) with ([c] ++ evs).
  rewrite silent_app, !chunks_of_app, IH. by destruct c.
Qed.

(** C9.  From the same world, with the same capability, prompt and callback,
    [send] of src/federation.ts and [send] of src/kernel.ts end alike: the
    same value returned or thrown, the same session field, the same state of
    the callback's owner, and, the writes to the console apart, the same
    calls in the same order (so [onChunk] gets the same arguments). *)
Theorem C9_federation_send_equivalent {H : Type} (global : option LanguageModelClass)
    (prompt : string) (onChunk : option (Callback H)) (w : World H) :
  (FederationTs.send global prompt onChunk w).1 = (KernelTs.send global prompt onChunk w).1 /\
  session (FederationTs.send global prompt onChunk w).2
    = session (KernelTs.send global prompt onChunk w).2 /\
  host (FederationTs.send global prompt onChunk w).2
    = host (KernelTs.send global prompt onChunk w).2 /\
  silent (calls_since w (FederationTs.send global prompt onChunk w).2)
    = calls_since w (KernelTs.send global prompt onChunk w).2 /\
  chunks_of (calls_since w (FederationTs.send global prompt onChunk w).2)
    = chunks_of (calls_since w (KernelTs.send global prompt onChunk w).2).
Proof.
  assert (Hmain :
    (FederationTs.send global prompt onChunk w).1 = (KernelTs.send global prompt onChunk w).1 /\
    alike (FederationTs.send global prompt onChunk w).2
      (KernelTs.send global prompt onChunk w).2 /\
    silent (calls_since w (FederationTs.send global prompt onChunk w).2)
      = calls_since w (KernelTs.send global prompt onChunk w).2).
  { rewrite KernelTs_send_unfold. unfold FederationTs.send. run.
    set (u := mkWorld (session w) (calls w ++ [CallConsoleLog _]) (host w)).
    destruct (provision_frame global u w) as (Hr & Hal & evs0 & Hc1 & Hc2); [done |].
    destruct (provision_prologue global w) as (evs0' & Hc2' & Hf0).
    rewrite Hc2 in Hc2'. apply app_inv_head in Hc2'. subst evs0'.
    apply silent_prologue in Hf0.
    destruct (provision global u) as [r1 u1], (provision global w) as [r2 u2].
    simpl in *. subst r1. destruct r2 as [[LM s]|e]; simpl.
    - destruct (promptStreaming LM s prompt) as [stream|e]; simpl.
      + rewrite <- !app_assoc. simpl. rewrite FederationTs_loop_eq.
        match goal with |- context [KernelTs.read_loop ?c ?v ?f ?r (mkWorld ?s1 ?cs1 ?h1)] =>
          match goal with |- context [KernelTs.read_loop c v f r (mkWorld ?s2 ?cs2 ?h2)] =>
            lazymatch cs1 with
            | cs2 => fail
            | _ =>
              destruct (KernelTs_loop_frame c v f r (mkWorld s1 cs1 h1) (mkWorld s2 cs2 h2))
                as (Hr' & Hal' & evs & Hd1 & Hd2); [by destruct Hal |];
              destruct (KernelTs_loop_calls c v f r (mkWorld s2 cs2 h2))
                as (evs' & Hd2' & _ & Hfl);
              destruct (KernelTs.read_loop c v f r (mkWorld s1 cs1 h1)) as [q1 v1];
              destruct (KernelTs.read_loop c v f r (mkWorld s2 cs2 h2)) as [q2 v2]
            end
          end
        end.
        simpl in *. rewrite Hd2 in Hd2'. apply app_inv_head in Hd2'. subst evs'.
        apply silent_loop in Hfl. subst q1.
        assert (Hk : calls_since w
            (mkWorld (session v2) (calls v2 ++ [CallReleaseLock]) (host v2))
          = evs0 ++ [CallPromptStreaming s prompt; CallGetReader] ++ evs ++ [CallReleaseLock]).
        { apply calls_since_app. simpl. rewrite Hd2, Hc2. by rewrite <- !app_assoc. }
        rewrite Hk. destruct q2 as [reply|e]; simpl.
        * split; [done |]. split; [done |].
          rewrite (calls_since_app w _
            ([CallConsoleLog ["[ChatSession] Sending prompt to Chrome built-in AI:"; prompt]]
             ++ evs0 ++ [CallPromptStreaming s prompt; CallGetReader] ++ evs
             ++ [CallReleaseLock;
                 CallConsoleLog ["[ChatSession] Got reply from Chrome built-in AI:"; reply]])).
          -- rewrite !silent_app, Hf0, Hfl. by simpl.
          -- simpl. rewrite Hd1, Hc1. unfold u. simpl. by rewrite <- !app_assoc.
        * split; [done |]. split; [done |].
          rewrite (calls_since_app w _
            ([CallConsoleLog ["[ChatSession] Sending prompt to Chrome built-in AI:"; prompt]]
             ++ evs0 ++ [CallPromptStreaming s prompt; CallGetReader] ++ evs
             ++ [CallReleaseLock])).
          -- rewrite !silent_app, Hf0, Hfl. by simpl.
          -- simpl. rewrite Hd1, Hc1. unfold u. simpl. by rewrite <- !app_assoc.
      + split; [done |]. split; [done |].
        rewrite (calls_since_app w _
          ([CallConsoleLog ["[ChatSession] Sending prompt to Chrome built-in AI:"; prompt]]
           ++ evs0 ++ [CallPromptStreaming s prompt])).
        * rewrite (calls_since_app w _ (evs0 ++ [CallPromptStreaming s prompt])).
          -- rewrite !silent_app, Hf0. by simpl.
          -- simpl. rewrite Hc2. by rewrite <- !app_assoc.
        * simpl. rewrite Hc1. unfold u. simpl. by rewrite <- !app_assoc.
    - split; [done |]. split; [done |].
      rewrite (calls_since_app w u1
        ([CallConsoleLog ["[ChatSession] Sending prompt to Chrome built-in AI:"; prompt]]
         ++ evs0)).
      + rewrite (calls_since_app w u2 evs0) by done.
        rewrite !silent_app, Hf0. by simpl.
      + rewrite Hc1. unfold u. simpl. by rewrite <- !app_assoc. }
  destruct Hmain as (Hr & [Hs Hh] & Hsil).
  repeat split; [done.. |]. by rewrite <- Hsil, chunks_of_silent.
Qed.

(** ** C4, C5 and C10: [executeRequest] *)

Lemma stdout_events_cons (parent : option Header) (value : string) (rest : list string) :
  stdout_events parent (value :: rest)
  = (if truthy value then [PubStream "stdout" value parent] else [])
    ++ stdout_events parent rest.
Proof.
  unfold stdout_events. destruct (truthy value) eqn:Ht.
  - rewrite filter_cons_True; [done | by apply Is_true_true].
  - rewrite filter_cons_False; [done | by apply Is_true_false].
Qed.

(** The loop under the callback of [executeRequest], which never throws. *)
Lemma KernelTs_loop_on_chunk (values : list string) (failure : option Thrown)
    (reply : string) (w : World BaseKernel) :
  (KernelTs.read_loop (Some BuiltInChatKernel.on_chunk) values failure reply w).1
    = match failure with
      | None => Returned (reply +:+ join values)
      | Some e => Threw e
      end /\
  host (KernelTs.read_loop (Some BuiltInChatKernel.on_chunk) values failure reply w).2
    = mkKernel (executionCount (host w)) (parentHeader (host w))
        (published (host w) ++ stdout_events (parentHeader (host w)) values).
Proof.
  revert reply w. induction values as [|value rest IH]; intros reply w.
  - simpl. run. destruct w as [s cs [n p ps]]. simpl.
    unfold stdout_events. simpl. rewrite app_nil_r, append_nil_r. by destruct failure.
  - simpl. run. rewrite stdout_events_cons.
    unfold notify, invoke. simpl.
    destruct (truthy value) eqn:Ht; simpl.
    + match goal with |- context [KernelTs.read_loop ?c rest ?f ?r ?w1] =>
        destruct (IH r w1) as [Hr Hh] end.
      rewrite Hr, Hh. simpl. rewrite <- app_assoc.
      split; [| done]. destruct failure; [done |].
      by rewrite append_assoc.
    + match goal with |- context [KernelTs.read_loop ?c rest ?f ?r ?w1] =>
        destruct (IH r w1) as [Hr Hh] end.
      rewrite Hr, Hh. simpl. split; [| done]. destruct failure; [done |].
      by rewrite append_assoc.
Qed.

(** [send] under the callback of [executeRequest]: the kernel's counter and
    parent header stay, and what is published is stdout messages only. *)
Lemma KernelTs_send_on_chunk (global : option LanguageModelClass) (prompt : string)
    (w : World BaseKernel) :
  exists values,
    host (KernelTs.send global prompt (Some BuiltInChatKernel.on_chunk) w).2
      = mkKernel (executionCount (host w)) (parentHeader (host w))
          (published (host w) ++ stdout_events (parentHeader (host w)) values) /\
    forall reply,
      (KernelTs.send global prompt (Some BuiltInChatKernel.on_chunk) w).1 = Returned reply ->
      exists stream, stream_of global prompt w = Some stream /\
        failure stream = None /\ items stream = values.
Proof.
  rewrite KernelTs_send_unfold. unfold stream_of.
  pose proof (provision_cases global w) as Hp.
  destruct (provision global w) as [r0 w0]. simpl in Hp.
  assert (Hh0 : host w0 = host w) by (by destruct Hp).
  assert (Hnil : host w = mkKernel (executionCount (host w)) (parentHeader (host w))
            (published (host w) ++ stdout_events (parentHeader (host w)) [])).
  { destruct (host w). simpl. by rewrite app_nil_r. }
  destruct r0 as [[LM s]|e]; [| exists []; simpl; rewrite Hh0; split; [exact Hnil | by intros]].
  destruct (promptStreaming LM s prompt) as [stream|e];
    [| exists []; simpl; rewrite Hh0; split; [exact Hnil | by intros]].
  match goal with |- context [KernelTs.read_loop ?c ?v ?f ?r ?w1] =>
    destruct (KernelTs_loop_on_chunk v f r w1) as [Hr Hh] end.
  exists (items stream). simpl in *. rewrite Hr, Hh, Hh0. split; [done |].
  intros reply Hret. exists stream. by destruct (failure stream).
Qed.

Lemma published_since_app (k k' : BaseKernel) (ps : list Published) :
  published k' = published k ++ ps -> published_since k k' = ps.
Proof. unfold published_since. intros ->. apply drop_app_length. Qed.

Lemma execute_errors_stdout (parent : option Header) (values : list string) :
  execute_errors (stdout_events parent values) = [].
Proof.
  unfold stdout_events, execute_errors.
  induction (filter truthy values) as [|v vs IH]; [done | exact IH].
Qed.

(** C5.  When [send] returns, [executeRequest] has published one stdout
    message for each non-empty value of the stream, in the order of the
    stream, and nothing else, and returns the "ok" reply carrying the
    execution counter of the kernel. *)
Theorem C5_execute_success (global : option LanguageModelClass) (content : Content)
    (w w1 : World BaseKernel) (reply : string) :
  KernelTs.send global (code_of content) (Some BuiltInChatKernel.on_chunk) w
    = (Returned reply, w1) ->
  BuiltInChatKernel.executeRequest global content w
    = (Returned (ExecuteOk (executionCount (host w)) [] ∅), w1) /\
  exists stream,
    stream_of global (code_of content) w = Some stream /\
    failure stream = None /\
    published_since (host w) (host w1)
      = stdout_events (parentHeader (host w)) (items stream).
Proof.
  intros Hsend.
  destruct (KernelTs_send_on_chunk global (code_of content) w) as (values & Hh & Hret).
  rewrite Hsend in Hh, Hret. simpl in Hh, Hret.
  destruct (Hret reply eq_refl) as (stream & Hstream & Hfail & Hitems). split.
  - unfold BuiltInChatKernel.executeRequest. unfold code_of in Hsend. run.
    rewrite Hsend. simpl. unfold BuiltInChatKernel.this_get. simpl. by rewrite Hh.
  - exists stream. split; [done |]. split; [done |].
    apply published_since_app. rewrite Hh, Hitems. done.
Qed.

(** A stream of three values, the second empty: two stdout messages. *)
Lemma C5_execute_success_witness :
  exists w1,
    BuiltInChatKernel.executeRequest (Some (ready_class ["Hel"; ""; "lo"] None))
      {["code" := JsString "hi"]} (new_ChatSession (mkKernel 7 None []))
      = (Returned (ExecuteOk 7 [] ∅), w1) /\
    published_since (mkKernel 7 None []) (host w1)
      = [PubStream "stdout" "Hel" None; PubStream "stdout" "lo" None].
Proof.
  eexists.
  edestruct (C5_execute_success (Some (ready_class ["Hel"; ""; "lo"] None))
               {["code" := JsString "hi"]} (new_ChatSession (mkKernel 7 None [])))
    as (Hrun & stream & Hstream & _ & Hpub).
  { vm_compute. reflexivity. }
  split; [exact Hrun |].
  vm_compute in Hstream. injection Hstream as <-. exact Hpub.
Defined.

(** C4.  When [send] throws, [executeRequest] does not rethrow: it publishes
    one execute-error message, the last message published, with ename
    "Error", the message of the thrown value as evalue and an empty
    traceback, and returns the "error" reply with the same ename, message and
    empty traceback. *)
Theorem C4_execute_failure (global : option LanguageModelClass) (content : Content)
    (w w1 : World BaseKernel) (err : Thrown) :
  KernelTs.send global (code_of content) (Some BuiltInChatKernel.on_chunk) w
    = (Threw err, w1) ->
  exists w2,
    BuiltInChatKernel.executeRequest global content w
      = (Returned (ExecuteError (executionCount (host w)) "Error"
                     (BuiltInChatKernel.message_of err) []), w2) /\
    execute_errors (published_since (host w) (host w2))
      = [("Error", BuiltInChatKernel.message_of err, [])] /\
    published (host w2)
      = published (host w1)
        ++ [PubExecuteError "Error" (BuiltInChatKernel.message_of err) []
              (parentHeader (host w))] /\
    (forall m, message err = Some m -> BuiltInChatKernel.message_of err = m).
Proof.
  intros Hsend.
  destruct (KernelTs_send_on_chunk global (code_of content) w) as (values & Hh & _).
  rewrite Hsend in Hh. simpl in Hh.
  eexists. split; [| split; [| split]].
  - unfold BuiltInChatKernel.executeRequest. unfold code_of in Hsend. run.
    rewrite Hsend. simpl.
    unfold BuiltInChatKernel.this_get, BuiltInChatKernel.this_do. simpl.
    rewrite Hh. simpl. reflexivity.
  - simpl. rewrite (published_since_app (host w) _
      (stdout_events (parentHeader (host w)) values
       ++ [PubExecuteError "Error" (BuiltInChatKernel.message_of err) []
             (parentHeader (host w))])).
    + unfold execute_errors. rewrite omap_app.
      fold (execute_errors (stdout_events (parentHeader (host w)) values)).
      by rewrite execute_errors_stdout.
    + simpl. by rewrite <- app_assoc.
  - simpl. by rewrite Hh.
  - intros m Hm. unfold BuiltInChatKernel.message_of. by rewrite Hm.
Qed.

(** A stream that fails with [new Error("lost")] after one value. *)
Lemma C4_execute_failure_witness :
  exists w2,
    BuiltInChatKernel.executeRequest (Some (ready_class ["Hel"] (Some (Error "lost"))))
      {["code" := JsString "hi"]} (new_ChatSession (mkKernel 7 None []))
      = (Returned (ExecuteError 7 "Error" "lost" []), w2) /\
    execute_errors (published_since (mkKernel 7 None []) (host w2))
      = [("Error", "lost", [])].
Proof.
  edestruct (C4_execute_failure (Some (ready_class ["Hel"] (Some (Error "lost"))))
               {["code" := JsString "hi"]} (new_ChatSession (mkKernel 7 None [])))
    as (w2 & Hrun & Herr & _).
  { vm_compute. reflexivity. }
  exists w2. split; [exact Hrun | exact Herr].
Defined.

Lemma prologue_prompted (evs : list Call) : Forall prologue_call evs -> prompted evs = [].
Proof.
  induction 1 as [|c evs Hc _ IH]; [done |].
  change (c :: evs) with ([c] ++ evs). rewrite prompted_app, IH. by destruct c.
Qed.

(** Every prompt [send] submits is the prompt it was given. *)
Lemma KernelTs_send_prompts {H : Type} (global : option LanguageModelClass) (prompt : string)
    (onChunk : option (Callback H)) (w : World H) :
  Forall (fun x => x.2 = prompt)
    (prompted (calls_since w (KernelTs.send global prompt onChunk w).2)).
Proof.
  rewrite KernelTs_send_unfold.
  destruct (provision_prologue global w) as (evs0 & Hc0 & Hf0).
  apply prologue_prompted in Hf0.
  destruct (provision global w) as [[[LM s]|e] w0]; simpl in *.
  - destruct (promptStreaming LM s prompt) as [stream|e]; simpl.
    + match goal with |- context [KernelTs.read_loop ?c ?v ?f ?r ?w1] =>
        destruct (KernelTs_loop_calls c v f r w1) as (evs & Hc & _ & Hf) end.
      apply loop_calls_prompted in Hf. simpl in *.
      rewrite (calls_since_app w _
        (evs0 ++ [CallPromptStreaming s prompt; CallGetReader] ++ evs ++ [CallReleaseLock])).
      * rewrite !prompted_app, Hf0, Hf. simpl. by repeat constructor.
      * simpl. rewrite Hc, Hc0. by rewrite <- !app_assoc.
    + rewrite (calls_since_app w _ (evs0 ++ [CallPromptStreaming s prompt])).
      * rewrite !prompted_app, Hf0. simpl. by repeat constructor.
      * simpl. by rewrite Hc0, <- app_assoc.
  - rewrite (calls_since_app w _ evs0) by done. rewrite Hf0. constructor.
Qed.

(** [executeRequest], unfolded along the two exits of its [send]. *)
Lemma executeRequest_unfold (global : option LanguageModelClass) (content : Content)
    (w : World BaseKernel) :
  BuiltInChatKernel.executeRequest global content w
  = match KernelTs.send global (code_of content) (Some BuiltInChatKernel.on_chunk) w with
    | (Returned _, w1) => (Returned (ExecuteOk (executionCount (host w1)) [] ∅), w1)
    | (Threw err, w1) =>
        (Returned (ExecuteError (executionCount (host w1)) "Error"
                     (BuiltInChatKernel.message_of err) []),
         mkWorld (session w1) (calls w1)
           (BuiltInChatKernel.publishExecuteError "Error"
              (BuiltInChatKernel.message_of err) [] (parentHeader (host w1)) (host w1)))
    end.
Proof.
  unfold BuiltInChatKernel.executeRequest, code_of. run.
  by destruct (KernelTs.send _ _ _ w) as [[reply|e] w1].
Qed.

(** On the contents of the model [executeRequest] returns, and the calls it
    makes on the outside are those of its [send]. *)
Lemma executeRequest_returns (global : option LanguageModelClass) (content : Content)
    (w : World BaseKernel) :
  (exists reply, (BuiltInChatKernel.executeRequest global content w).1 = Returned reply) /\
  calls (BuiltInChatKernel.executeRequest global content w).2
    = calls (KernelTs.send global (code_of content) (Some BuiltInChatKernel.on_chunk) w).2.
Proof.
  unfold BuiltInChatKernel.executeRequest, code_of. run.
  destruct (KernelTs.send _ _ _ w) as [[reply|e] w1]; simpl; split; by eauto.
Qed.

(** C10.  When the content has no [code] property, or has it [undefined] or
    [null], the prompt is the empty string: [executeRequest] calls [send]
    with the empty string and its own callback, and answers from what that
    [send] does, "ok" when it returns and "error" when it throws.  It
    returns, having run exactly as on a content whose [code] is "", and
    every prompt it submitted is the empty string. *)
Theorem C10_missing_code_is_empty_prompt (global : option LanguageModelClass)
    (content : Content) (w : World BaseKernel) :
  (content !! "code" = None \/ content !! "code" = Some JsUndefined \/
   content !! "code" = Some JsNull) ->
  code_of content = "" /\
  BuiltInChatKernel.executeRequest global content w
    = BuiltInChatKernel.executeRequest global (<["code" := JsString ""]> content) w /\
  (exists reply, (BuiltInChatKernel.executeRequest global content w).1 = Returned reply) /\
  Forall (fun x => x.2 = "")
    (prompted (calls_since w (BuiltInChatKernel.executeRequest global content w).2)) /\
  BuiltInChatKernel.executeRequest global content w
    = match KernelTs.send global "" (Some BuiltInChatKernel.on_chunk) w with
      | (Returned _, w1) => (Returned (ExecuteOk (executionCount (host w1)) [] ∅), w1)
      | (Threw err, w1) =>
          (Returned (ExecuteError (executionCount (host w1)) "Error"
                       (BuiltInChatKernel.message_of err) []),
           mkWorld (session w1) (calls w1)
             (BuiltInChatKernel.publishExecuteError "Error"
                (BuiltInChatKernel.message_of err) [] (parentHeader (host w1)) (host w1)))
      end /\
  calls (BuiltInChatKernel.executeRequest global content w).2
    = calls (KernelTs.send global "" (Some BuiltInChatKernel.on_chunk) w).2 /\
  session (BuiltInChatKernel.executeRequest global content w).2
    = session (KernelTs.send global "" (Some BuiltInChatKernel.on_chunk) w).2.
Proof.
  intros Hcode.
  assert (Hempty : code_of content = "").
  { unfold code_of, get_prop. by destruct Hcode as [->|[->| ->]]. }
  assert (Hset : code_of (<["code" := JsString ""]> content) = "").
  { unfold code_of, get_prop. by rewrite lookup_insert_eq. }
  assert (Hrun := executeRequest_unfold global content w). rewrite Hempty in Hrun.
  split; [done |]. split; [| split; [| split; [| split; [| split]]]].
  - unfold BuiltInChatKernel.executeRequest.
    fold (code_of content). fold (code_of (<["code" := JsString ""]> content)).
    by rewrite Hempty, Hset.
  - by destruct (executeRequest_returns global content w) as [Hret _].
  - destruct (executeRequest_returns global content w) as [_ Hcalls].
    unfold calls_since. rewrite Hcalls, Hempty.
    apply (KernelTs_send_prompts global "" (Some BuiltInChatKernel.on_chunk) w).
  - exact Hrun.
  - rewrite Hrun.
    by destruct (KernelTs.send global "" (Some BuiltInChatKernel.on_chunk) w) as [[r|e] w1].
  - rewrite Hrun.
    by destruct (KernelTs.send global "" (Some BuiltInChatKernel.on_chunk) w) as [[r|e] w1].
Qed.

(** The empty content. *)
Lemma C10_missing_code_is_empty_prompt_witness :
  code_of ∅ = "" /\
  prompted (calls_since (new_ChatSession (mkKernel 7 None []))
              (BuiltInChatKernel.executeRequest (Some (ready_class ["Hi"] None)) ∅
                 (new_ChatSession (mkKernel 7 None []))).2)
    = [(mkLanguageModel 1, "")] /\
  calls (BuiltInChatKernel.executeRequest (Some (ready_class ["Hi"] None)) ∅
           (new_ChatSession (mkKernel 7 None []))).2
    = calls (KernelTs.send (Some (ready_class ["Hi"] None)) ""
               (Some BuiltInChatKernel.on_chunk) (new_ChatSession (mkKernel 7 None []))).2.
Proof.
  destruct (C10_missing_code_is_empty_prompt (Some (ready_class ["Hi"] None)) ∅
              (new_ChatSession (mkKernel 7 None []))) as (Hcode & _ & _ & _ & _ & Hcalls & _).
  { left. reflexivity. }
  split; [exact Hcode |]. split; [vm_compute; reflexivity | exact Hcalls].
Defined.

(** ** C6: the handlers that answer with a fixed shape *)

(** C6 (corrected form).  [inspectRequest], [isCompleteRequest], [commInfoRequest],
    [historyRequest] and [shutdownRequest] return the same literal whatever
    the content, and [kernelInfoRequest], which takes no content, is a
    literal.  [completeRequest] returns status "ok", no matches and empty
    metadata, with [cursor_start] and [cursor_end] both the content's
    [cursor_pos], or 0 when that is missing, [undefined] or [null]: it
    returns the same value on two contents that have the same [cursor_pos]. *)
Theorem C6_fixed_shape_handlers (content1 content2 : Content) :
  (BuiltInChatKernel.inspectRequest content1 = BuiltInChatKernel.inspectRequest content2 /\
   BuiltInChatKernel.inspectRequest content1 = InspectReply.mk "ok" false ∅ ∅) /\
  (BuiltInChatKernel.isCompleteRequest content1 = BuiltInChatKernel.isCompleteRequest content2 /\
   BuiltInChatKernel.isCompleteRequest content1 = IsCompleteReply.mk "complete" "") /\
  (BuiltInChatKernel.commInfoRequest content1 = BuiltInChatKernel.commInfoRequest content2 /\
   BuiltInChatKernel.commInfoRequest content1 = CommInfoReply.mk "ok" ∅) /\
  (BuiltInChatKernel.historyRequest content1 = BuiltInChatKernel.historyRequest content2 /\
   BuiltInChatKernel.historyRequest content1 = HistoryReply.mk "ok" []) /\
  (BuiltInChatKernel.shutdownRequest content1 = BuiltInChatKernel.shutdownRequest content2 /\
   BuiltInChatKernel.shutdownRequest content1 = ShutdownReply.mk "ok" false) /\
  BuiltInChatKernel.kernelInfoRequest
    = KernelInfoReply.mk "ok" "5.3" "built-in-chat-kernel" "0.2.6dev6"
        (KernelInfoReply.mkLanguageInfo "markdown" "0.0.0" "text/markdown" ".md")
        "Chrome Built-in AI chat kernel" [] /\
  (CompleteReply.status (BuiltInChatKernel.completeRequest content1) = "ok" /\
   CompleteReply.matches (BuiltInChatKernel.completeRequest content1) = [] /\
   CompleteReply.metadata (BuiltInChatKernel.completeRequest content1) = ∅ /\
   CompleteReply.cursor_end (BuiltInChatKernel.completeRequest content1)
     = CompleteReply.cursor_start (BuiltInChatKernel.completeRequest content1)) /\
  (content1 !! "cursor_pos" = None ->
   CompleteReply.cursor_start (BuiltInChatKernel.completeRequest content1) = JsNumber 0) /\
  (forall n, content1 !! "cursor_pos" = Some (JsNumber n) ->
   CompleteReply.cursor_start (BuiltInChatKernel.completeRequest content1) = JsNumber n) /\
  (content1 !! "cursor_pos" = content2 !! "cursor_pos" ->
   BuiltInChatKernel.completeRequest content1 = BuiltInChatKernel.completeRequest content2) /\
  (content1 !! "cursor_pos" = Some JsNull ->
   CompleteReply.cursor_start (BuiltInChatKernel.completeRequest content1) = JsNumber 0) /\
  (content1 !! "cursor_pos" = Some JsUndefined ->
   CompleteReply.cursor_start (BuiltInChatKernel.completeRequest content1) = JsNumber 0) /\
  (forall v, content1 !! "cursor_pos" = Some v -> v <> JsNull -> v <> JsUndefined ->
   CompleteReply.cursor_start (BuiltInChatKernel.completeRequest content1) = v).
Proof.
  repeat split.
  - intros Hnone. unfold BuiltInChatKernel.completeRequest, get_prop. simpl. by rewrite Hnone.
  - intros n Hn. unfold BuiltInChatKernel.completeRequest, get_prop. simpl. by rewrite Hn.
  - intros Hsame. unfold BuiltInChatKernel.completeRequest, get_prop. by rewrite Hsame.
  - intros Hnull. unfold BuiltInChatKernel.completeRequest, get_prop. simpl. by rewrite Hnull.
  - intros Hundef. unfold BuiltInChatKernel.completeRequest, get_prop. simpl.
    by rewrite Hundef.
  - intros v Hv Hnull Hundef. unfold BuiltInChatKernel.completeRequest, get_prop. simpl.
    rewrite Hv. by destruct v.
Qed.

(** Contents without a cursor position, with one, and with a null one. *)
Lemma C6_fixed_shape_handlers_witness :
  CompleteReply.cursor_start (BuiltInChatKernel.completeRequest ∅) = JsNumber 0 /\
  CompleteReply.cursor_start
    (BuiltInChatKernel.completeRequest {["cursor_pos" := JsNumber 5]}) = JsNumber 5 /\
  BuiltInChatKernel.completeRequest {["cursor_pos" := JsNumber 5]}
    = BuiltInChatKernel.completeRequest (<["code" := JsString "x"]> {["cursor_pos" := JsNumber 5]}) /\
  CompleteReply.cursor_start
    (BuiltInChatKernel.completeRequest {["cursor_pos" := JsNull]}) = JsNumber 0 /\
  CompleteReply.cursor_start
    (BuiltInChatKernel.completeRequest {["cursor_pos" := JsUndefined]}) = JsNumber 0 /\
  CompleteReply.cursor_start
    (BuiltInChatKernel.completeRequest {["cursor_pos" := JsString "7"]}) = JsString "7".
Proof.
  split; [| split; [| split; [| split; [| split]]]].
  - destruct (C6_fixed_shape_handlers ∅ ∅) as (_ & _ & _ & _ & _ & _ & _ & Hnone & _).
    apply Hnone. reflexivity.
  - destruct (C6_fixed_shape_handlers {["cursor_pos" := JsNumber 5]} ∅)
      as (_ & _ & _ & _ & _ & _ & _ & _ & Hsome & _).
    apply Hsome. vm_compute. reflexivity.
  - destruct (C6_fixed_shape_handlers {["cursor_pos" := JsNumber 5]}
                (<["code" := JsString "x"]> {["cursor_pos" := JsNumber 5]}))
      as (_ & _ & _ & _ & _ & _ & _ & _ & _ & Hsame & _).
    apply Hsame. vm_compute. reflexivity.
  - destruct (C6_fixed_shape_handlers {["cursor_pos" := JsNull]} ∅)
      as (_ & _ & _ & _ & _ & _ & _ & _ & _ & _ & Hnull & _).
    apply Hnull. vm_compute. reflexivity.
  - destruct (C6_fixed_shape_handlers {["cursor_pos" := JsUndefined]} ∅)
      as (_ & _ & _ & _ & _ & _ & _ & _ & _ & _ & _ & Hundef & _).
    apply Hundef. vm_compute. reflexivity.
  - destruct (C6_fixed_shape_handlers {["cursor_pos" := JsString "7"]} ∅)
      as (_ & _ & _ & _ & _ & _ & _ & _ & _ & _ & _ & _ & Hecho).
    apply Hecho; [vm_compute; reflexivity | discriminate | discriminate].
Defined.

(** C6 as stated fails for [completeRequest]: its reply carries the cursor
    position of the content, so two contents can get different replies. *)
Lemma C6_counterexample_completeRequest :
  BuiltInChatKernel.completeRequest {["cursor_pos" := JsNumber 5]}
  <> BuiltInChatKernel.completeRequest ∅.
Proof.
  intros Heq. apply (f_equal CompleteReply.cursor_start) in Heq.
  vm_compute in Heq. discriminate.
Qed.

(** * Further properties of the relays *)

(** ** [send] of src/kernel.ts: the reply and the chunks *)

Lemma filter_truthy_cons (value : string) (rest : list string) :
  filter truthy (value :: rest)
  = (if truthy value then [value] else []) ++ filter truthy rest.
Proof.
  destruct (truthy value) eqn:Ht.
  - rewrite filter_cons_True; [done | by apply Is_true_true].
  - rewrite filter_cons_False; [done | by apply Is_true_false].
Qed.

Lemma notify_chunk_list {H : Type} (onChunk : option (Callback H)) (chunk : string)
    (w : World H) :
  exists evs, calls (notify onChunk chunk w).2 = calls w ++ evs /\
    chunks_of evs = match onChunk with
                    | Some _ => if truthy chunk then [chunk] else []
                    | None => []
                    end.
Proof.
  unfold notify. destruct onChunk as [f|]; [| by exists []; rewrite app_nil_r].
  destruct (truthy chunk); [| by exists []; rewrite app_nil_r].
  unfold invoke. destruct (f chunk (host w)) as [r h']. simpl. by eexists.
Qed.

Lemma KernelTs_loop_returned {H : Type} (onChunk : option (Callback H))
    (values : list string) (failure : option Thrown) (reply : string)
    (w w' : World H) (out : string) :
  KernelTs.read_loop onChunk values failure reply w = (Returned out, w') ->
  failure = None /\ out = reply +:+ join values /\
  exists evs, calls w' = calls w ++ evs /\
    chunks_of evs = match onChunk with
                    | Some _ => filter truthy values
                    | None => []
                    end.
Proof.
  revert reply w. induction values as [|value rest IH]; intros reply w Hrun.
  - simpl in Hrun. run. destruct failure; simplify_eq.
    split; [done |]. split; [by rewrite append_nil_r |].
    exists [CallRead]. split; [done |]. by destruct onChunk.
  - simpl in Hrun. run.
    set (w1 := mkWorld (session w) (calls w ++ [CallRead]) (host w)) in *.
    destruct (notify_chunk_list onChunk value w1) as (evs1 & Hc1 & Hk1).
    destruct (notify onChunk value w1) as [[[]|e] w2]; simpl in Hrun; [| done].
    apply IH in Hrun as (Hfail & -> & evs2 & Hc2 & Hk2). simpl in Hc1.
    split; [done |]. split.
    + change (join (value :: rest)) with (value +:+ join rest).
      by rewrite append_assoc.
    + exists ([CallRead] ++ evs1 ++ evs2). split.
      * rewrite Hc2, Hc1. unfold w1. simpl. by rewrite <- !app_assoc.
      * rewrite !chunks_of_app, Hk1, Hk2. simpl.
        destruct onChunk; [by rewrite filter_truthy_cons | done].
Qed.

(** X1.  When [send] of src/kernel.ts returns, the stream ended without a
    failure and the reply is the values of the stream put together in order;
    with a callback, [onChunk] received exactly the values that are not
    empty, in order, and without one it was not called. *)
Theorem KernelTs_send_reply_and_chunks {H : Type} (global : option LanguageModelClass)
    (prompt : string) (onChunk : option (Callback H)) (w w' : World H)
    (stream : ReadableStream) (reply : string) :
  stream_of global prompt w = Some stream ->
  KernelTs.send global prompt onChunk w = (Returned reply, w') ->
  failure stream = None /\
  reply = join (items stream) /\
  chunks_of (calls_since w w')
  = match onChunk with
    | Some _ => filter truthy (items stream)
    | None => []
    end.
Proof.
  intros Hstream Hsend. rewrite KernelTs_send_unfold in Hsend.
  unfold stream_of in Hstream.
  destruct (provision_calls global w) as (evs0 & Hc0 & Hk0).
  destruct (provision global w) as [[[LM s]|e] w0]; [| done].
  destruct (promptStreaming LM s prompt) as [stream'|e]; [| done].
  simplify_eq. simpl in Hsend, Hc0.
  destruct (KernelTs.read_loop _ _ _ _ _) as [r w1] eqn:Hloop.
  simpl in Hsend. simplify_eq.
  apply KernelTs_loop_returned in Hloop as (Hfail & -> & evs & Hc & Hk). simpl in Hc.
  split; [done |]. split; [done |].
  rewrite (calls_since_app w _
    (evs0 ++ [CallPromptStreaming s prompt; CallGetReader] ++ evs ++ [CallReleaseLock])).
  - rewrite !chunks_of_app, Hk0, Hk. simpl. by rewrite app_nil_r.
  - simpl. rewrite Hc, Hc0. by rewrite <- !app_assoc.
Qed.

Lemma KernelTs_send_reply_and_chunks_witness :
  exists w',
    KernelTs.send (Some (ready_class ["Hel"; ""; "lo"] None)) "hi" (Some collect)
      (new_ChatSession []) = (Returned "Hello", w') /\
    chunks_of (calls_since (new_ChatSession []) w') = ["Hel"; "lo"].
Proof.
  eexists. split; [vm_compute; reflexivity |].
  edestruct (KernelTs_send_reply_and_chunks (Some (ready_class ["Hel"; ""; "lo"] None))
               "hi" (Some collect) (new_ChatSession []))
    as (_ & _ & Hchunks).
  - vm_compute; reflexivity.
  - vm_compute; reflexivity.
  - exact Hchunks.
Defined.

Lemma notify_quiet {H : Type} (onChunk : option (Callback H)) (chunk : string)
    (w : World H) :
  quiet onChunk ->
  (notify onChunk chunk w).1 = Returned tt /\
  session (notify onChunk chunk w).2 = session w /\
  (onChunk = None -> host (notify onChunk chunk w).2 = host w).
Proof.
  intros Hq. unfold notify. destruct onChunk as [f|]; [| done].
  destruct (truthy chunk); [| done].
  unfold invoke. specialize (Hq chunk (host w)).
  destruct (f chunk (host w)) as [r h']. simpl in *. by subst r.
Qed.

Lemma KernelTs_loop_quiet {H : Type} (onChunk : option (Callback H))
    (values : list string) (failure : option Thrown) (reply : string) (w : World H) :
  quiet onChunk ->
  (KernelTs.read_loop onChunk values failure reply w).1
    = match failure with
      | None => Returned (reply +:+ join values)
      | Some e => Threw e
      end /\
  (onChunk = None ->
   host (KernelTs.read_loop onChunk values failure reply w).2 = host w).
Proof.
  intros Hq. revert reply w. induction values as [|value rest IH]; intros reply w.
  - simpl. run. destruct failure; simpl; [done |]. by rewrite append_nil_r.
  - simpl. run.
    set (w1 := mkWorld (session w) (calls w ++ [CallRead]) (host w)).
    destruct (notify_quiet onChunk value w1 Hq) as (Hr & _ & Hh).
    destruct (notify onChunk value w1) as [r w2]. simpl in *. subst r.
    destruct (IH (reply +:+ value) w2) as [Hout Hhost]. rewrite Hout. split.
    + destruct failure; [done |].
      change (join (value :: rest)) with (value +:+ join rest).
      by rewrite append_assoc.
    + intros Hnone. by rewrite Hhost, Hh.
Qed.

(** X2.  With a stream in hand and a callback that is absent or never
    throws, [send] of src/kernel.ts ends as the stream does: it returns all
    the values put together when the stream ends, and throws the failure of
    the stream when it fails.  Without a callback the state of the caller is
    left as it was. *)
Theorem KernelTs_send_follows_stream {H : Type} (global : option LanguageModelClass)
    (prompt : string) (onChunk : option (Callback H)) (w : World H)
    (stream : ReadableStream) :
  stream_of global prompt w = Some stream ->
  quiet onChunk ->
  (KernelTs.send global prompt onChunk w).1
    = match failure stream with
      | None => Returned (join (items stream))
      | Some e => Threw e
      end /\
  (onChunk = None -> host (KernelTs.send global prompt onChunk w).2 = host w).
Proof.
  intros Hstream Hq. rewrite KernelTs_send_unfold. unfold stream_of in Hstream.
  pose proof (provision_cases global w) as Hp.
  destruct (provision global w) as [[[LM s]|e] w0]; [| done].
  assert (Hh0 : host w0 = host w) by (simpl in Hp; by inversion Hp).
  destruct (promptStreaming LM s prompt) as [stream'|e]; [| done].
  simplify_eq. simpl.
  match goal with |- context [KernelTs.read_loop ?c ?v ?f ?r ?w1] =>
    destruct (KernelTs_loop_quiet c v f r w1 Hq) as [Hout Hhost] end.
  split; [exact Hout |]. intros Hnone. by rewrite Hhost.
Qed.

Lemma KernelTs_send_follows_stream_witness :
  (KernelTs.send (Some (ready_class ["par"; "tial"] (Some (Error "lost")))) "hi"
     (Some collect) (new_ChatSession [])).1 = Threw (Error "lost").
Proof.
  edestruct (KernelTs_send_follows_stream
               (Some (ready_class ["par"; "tial"] (Some (Error "lost")))) "hi"
               (Some collect) (new_ChatSession [])) as [Hout _].
  - vm_compute; reflexivity.
  - intros chunk h. reflexivity.
  - exact Hout.
Defined.

(** ** [send] of src/kernel.ts: the session over failures and over many calls *)

Lemma KernelTs_send_keeps_handle {H : Type} (global : option LanguageModelClass)
    (prompt : string) (onChunk : option (Callback H)) (w : World H)
    (stream : ReadableStream) :
  stream_of global prompt w = Some stream ->
  exists s, session (KernelTs.send global prompt onChunk w).2 = Some s.
Proof.
  intros Hstream. rewrite KernelTs_send_unfold. unfold stream_of in Hstream.
  pose proof (provision_cases global w) as Hp.
  destruct (provision global w) as [[[LM s]|e] w0]; [| done].
  assert (Hs0 : session w0 = Some s) by (simpl in Hp; by inversion Hp).
  destruct (promptStreaming LM s prompt) as [stream'|e]; [| done].
  match goal with |- context [KernelTs.read_loop ?c ?v ?f ?r ?w1] =>
    destruct (KernelTs_loop_calls c v f r w1) as (evs & _ & Hse & _) end.
  exists s. simpl in *. by rewrite Hse.
Qed.

(** X3.  A [send] of src/kernel.ts that got its stream leaves the session
    field set however it ends, also when it throws in the middle of the
    stream; the [send] after it creates nothing and keeps that session. *)
Theorem KernelTs_session_survives_failure {H : Type}
    (global1 global2 : option LanguageModelClass) (prompt1 prompt2 : string)
    (onChunk1 onChunk2 : option (Callback H)) (w w1 w2 : World H)
    (stream : ReadableStream) (r1 r2 : Outcome string) :
  stream_of global1 prompt1 w = Some stream ->
  KernelTs.send global1 prompt1 onChunk1 w = (r1, w1) ->
  KernelTs.send global2 prompt2 onChunk2 w1 = (r2, w2) ->
  exists s, session w1 = Some s /\ session w2 = Some s /\
    creates (calls_since w1 w2) = 0.
Proof.
  intros Hstream Hfirst Hsecond.
  destruct (KernelTs_send_keeps_handle global1 prompt1 onChunk1 w stream Hstream)
    as [s Hs1].
  rewrite Hfirst in Hs1. simpl in Hs1.
  destruct (KernelTs_send_session global2 prompt2 onChunk2 w1) as (evs2 & Hc2 & Hold).
  rewrite Hsecond in Hc2, Hold. rewrite Hs1 in Hold. simpl in Hc2, Hold.
  destruct Hold as (Hs2 & Hcr2 & _).
  exists s. by rewrite (calls_since_app w1 w2 evs2).
Qed.

Lemma KernelTs_session_survives_failure_witness :
  exists w1 w2,
    KernelTs.send (Some (ready_class ["par"] (Some (Error "lost")))) "one" (Some collect)
      (new_ChatSession []) = (Threw (Error "lost"), w1) /\
    KernelTs.send (Some (ready_class ["Ho"] None)) "two" (Some collect) w1
      = (Returned "Ho", w2) /\
    session w2 = Some (mkLanguageModel 1) /\
    creates (calls_since w1 w2) = 0.
Proof.
  eexists. eexists. split; [vm_compute; reflexivity |].
  split; [vm_compute; reflexivity |].
  edestruct (KernelTs_session_survives_failure
               (Some (ready_class ["par"] (Some (Error "lost"))))
               (Some (ready_class ["Ho"] None)) "one" "two" (Some collect) (Some collect)
               (new_ChatSession [])) as (s & Hs1 & Hs2 & Hcr).
  - vm_compute; reflexivity.
  - vm_compute; reflexivity.
  - vm_compute; reflexivity.
  - split; [| exact Hcr]. vm_compute. reflexivity.
Defined.

(** X4.  When there is no session yet and [LanguageModel.create] throws,
    [send] of src/kernel.ts throws the same value after the availability
    query and that one call of [create]: no prompt is submitted and the
    session field stays unset, so the next [send] tries to create again. *)
Theorem KernelTs_create_failure {H : Type} (cls : LanguageModelClass) (av : Availability)
    (err : Thrown) (prompt : string) (onChunk : option (Callback H)) (w : World H) :
  availability cls = Returned av ->
  av <> unavailable ->
  session w = None ->
  create cls (needs_download av) = Threw err ->
  KernelTs.send (Some cls) prompt onChunk w
  = (Threw err,
     mkWorld None (calls w ++ [CallAvailability; CallCreate (needs_download av)]) (host w)).
Proof.
  intros Hav Hnu Hnone Hthrow. rewrite KernelTs_send_unfold.
  provision_inv (Some cls) w; simplify_eq; congruence.
Qed.

Lemma KernelTs_create_failure_witness :
  KernelTs.send
    (Some (mkClass (Returned downloadable) (fun _ => Threw (Error "quota"))
             (fun _ _ => Returned (mkStream ["Hi"] None))))
    "hi" (Some collect) (new_ChatSession [])
  = (Threw (Error "quota"), mkWorld None [CallAvailability; CallCreate true] []).
Proof.
  apply (KernelTs_create_failure
           (mkClass (Returned downloadable) (fun _ => Threw (Error "quota"))
              (fun _ _ => Returned (mkStream ["Hi"] None)))
           downloadable (Error "quota") "hi" (Some collect) (new_ChatSession []));
    [reflexivity | discriminate | reflexivity | reflexivity].
Defined.

Lemma create_flags_app (xs ys : list Call) :
  create_flags (xs ++ ys) = create_flags xs ++ create_flags ys.
Proof. apply omap_app. Qed.

Lemma loop_calls_create_flags (evs : list Call) :
  Forall loop_call evs -> create_flags evs = [].
Proof.
  induction 1 as [|c evs Hc _ IH]; [done |].
  change (c :: evs) with ([c] ++ evs). rewrite create_flags_app, IH. by destruct c.
Qed.



Lemma send_many_from_session {H : Type} (requests : list (Request H)) (w : World H)
    (s : LanguageModel) :
  session w = Some s ->
  exists evs, calls (send_many requests w) = calls w ++ evs /\
    session (send_many requests w) = Some s /\
    creates evs = 0 /\ Forall (fun x => x.1 = s) (prompted evs).
Proof.
  revert w. induction requests as [|r rest IH]; intros w Hs.
  - exists []. simpl. rewrite app_nil_r. by repeat split.
  - simpl.
    destruct (KernelTs_send_session (req_global r) (req_prompt r) (req_onChunk r) w)
      as (evs1 & Hc1 & Hold).
    rewrite Hs in Hold. destruct Hold as (Hs1 & Hcr1 & Hp1).
    destruct (IH _ Hs1) as (evs2 & Hc2 & Hs2 & Hcr2 & Hp2).
    exists (evs1 ++ evs2). rewrite Hc2, Hc1, <- app_assoc.
    split; [done |]. split; [done |].
    rewrite creates_app, prompted_app, Hcr1, Hcr2.
    split; [done |]. by apply Forall_app.
Qed.

(** X6.  Once the relay of src/kernel.ts holds a session, any number of
    [send] calls one after the other, whatever the capability answers and
    however each call ends, leave that session in place, never call
    [create], and prompt no other session. *)
Theorem KernelTs_session_written_once {H : Type} (requests : list (Request H))
    (w : World H) (s : LanguageModel) :
  session w = Some s ->
  session (send_many requests w) = Some s /\
  creates (calls_since w (send_many requests w)) = 0 /\
  Forall (fun x => x.1 = s) (prompted (calls_since w (send_many requests w))).
Proof.
  intros Hs.
  destruct (send_many_from_session requests w s Hs) as (evs & Hc & Hs' & Hcr & Hp).
  by rewrite (calls_since_app w _ evs).
Qed.

Lemma KernelTs_session_written_once_witness :
  session (send_many
             [mkRequest (Some (ready_class ["a"] None)) "one" (Some collect);
              mkRequest None "two" None;
              mkRequest (Some (ready_class ["b"] (Some (Error "lost")))) "three" (Some picky)]
             (mkWorld (Some (mkLanguageModel 4)) [] []))
  = Some (mkLanguageModel 4).
Proof.
  apply (KernelTs_session_written_once
           [mkRequest (Some (ready_class ["a"] None)) "one" (Some collect);
            mkRequest None "two" None;
            mkRequest (Some (ready_class ["b"] (Some (Error "lost")))) "three" (Some picky)]
           (mkWorld (Some (mkLanguageModel 4)) [] []) (mkLanguageModel 4)).
  reflexivity.
Defined.

(** ** [send] of src/ChatSession.ts (the snapshot-slicing relay) *)

Lemma ChatSessionTs_loop_returned {H : Type} (onChunk : option (Callback H))
    (values : list string) (failure : option Thrown) (reply : string) (n : nat)
    (w w' : World H) (out : string) :
  ChatSessionTs.read_loop onChunk values failure reply n w = (Returned out, w') ->
  failure = None /\ out = default reply (last values).
Proof.
  revert reply n w. induction values as [|value rest IH]; intros reply n w Hrun.
  - simpl in Hrun. run. by destruct failure; simplify_eq.
  - simpl in Hrun. run.
    destruct (notify onChunk _ _) as [[[]|e] w2]; simpl in Hrun; [| done].
    apply IH in Hrun as [Hfail ->]. split; [done |].
    destruct rest as [|v rest]; [done |].
    rewrite last_cons_cons.
    destruct (last (v :: rest)) eqn:Hl; [done | by apply last_None in Hl].
Qed.

(** X7.  When [send] of src/ChatSession.ts returns, the reply is the last
    value the stream yielded, and the empty string when it yielded none:
    whatever came before the last value is not part of the reply. *)
Theorem ChatSessionTs_send_reply_is_last_value {H : Type}
    (global : option LanguageModelClass) (prompt : string)
    (onChunk : option (Callback H)) (w w' : World H) (stream : ReadableStream)
    (reply : string) :
  stream_of global prompt w = Some stream ->
  ChatSessionTs.send global prompt onChunk w = (Returned reply, w') ->
  failure stream = None /\ reply = last_value (items stream).
Proof.
  intros Hstream Hsend. rewrite ChatSessionTs_send_unfold in Hsend.
  unfold stream_of in Hstream.
  destruct (provision global w) as [[[LM s]|e] w0]; [| done].
  destruct (promptStreaming LM s prompt) as [stream'|e]; [| done].
  simplify_eq. simpl in Hsend.
  destruct (ChatSessionTs.read_loop _ _ _ _ _ _) as [r w1] eqn:Hloop.
  simpl in Hsend. simplify_eq.
  by apply ChatSessionTs_loop_returned in Hloop.
Qed.

Lemma ChatSessionTs_send_reply_is_last_value_witness :
  exists reply w',
    ChatSessionTs.send (Some (ready_class ["Hel"; "Hello"; "Hello!"] None)) "hi"
      (Some collect) (new_ChatSession []) = (Returned reply, w') /\
    reply = "Hello!".
Proof.
  eexists. eexists. split; [vm_compute; reflexivity |].
  edestruct (ChatSessionTs_send_reply_is_last_value
               (Some (ready_class ["Hel"; "Hello"; "Hello!"] None)) "hi" (Some collect)
               (new_ChatSession [])) as [_ Hreply].
  - vm_compute; reflexivity.
  - vm_compute; reflexivity.
  - exact Hreply.
Defined.

(** ** [send] of the versions on [window.ai] and [self.ai] *)







(** ** [send] of the version on @built-in-ai/core *)

Lemma BuiltInAiTs_loop_calls {H : Type} (onChunk : option (Callback H))
    (values : list string) (failure : option Thrown) (reply : string) (w : World H) :
  exists evs,
    calls (BuiltInAiTs.for_await onChunk values failure reply w).2 = calls w ++ evs /\
    session (BuiltInAiTs.for_await onChunk values failure reply w).2 = session w /\
    Forall loop_call evs.
Proof.
  revert reply w. induction values as [|value rest IH]; intros reply w.
  - exists [CallRead]. simpl. run.
    destruct failure; simpl; repeat split; by repeat constructor.
  - simpl. run.
    set (w1 := mkWorld (session w) (calls w ++ [CallRead]) (host w)).
    destruct onChunk as [f|]; simpl.
    + unfold invoke. destruct (f value (host w1)) as [[[]|e] h']; simpl.
      * match goal with |- context [BuiltInAiTs.for_await ?c rest ?f ?r ?w2] =>
          destruct (IH r w2) as (evs & Hc & Hs & Hf) end.
        exists ([CallRead; CallOnChunk value] ++ evs). rewrite Hc, Hs. simpl.
        rewrite <- !app_assoc. split; [done |]. split; [done |]. by repeat constructor.
      * exists [CallRead; CallOnChunk value]. rewrite <- app_assoc.
        split; [done |]. split; [done |]. by repeat constructor.
    + destruct (IH (reply +:+ value) w1) as (evs & Hc & Hs & Hf).
      exists ([CallRead] ++ evs). rewrite Hc, Hs. unfold w1. simpl.
      rewrite <- app_assoc. split; [done |]. split; [done |]. by repeat constructor.
Qed.

Lemma BuiltInAiTs_loop_returned {H : Type} (f : Callback H) (values : list string)
    (failure : option Thrown) (reply : string) (w w' : World H) (out : string) :
  BuiltInAiTs.for_await (Some f) values failure reply w = (Returned out, w') ->
  failure = None /\ out = reply +:+ join values /\
  exists evs, calls w' = calls w ++ evs /\ chunks_of evs = values.
Proof.
  revert reply w. induction values as [|value rest IH]; intros reply w Hrun.
  - simpl in Hrun. run. destruct failure; simplify_eq.
    split; [done |]. split; [by rewrite append_nil_r |]. by exists [CallRead].
  - simpl in Hrun. run. unfold invoke in Hrun. simpl in Hrun.
    destruct (f value (host w)) as [[[]|e] h']; simpl in Hrun; [| done].
    apply IH in Hrun as (Hfail & -> & evs & Hc & Hk). simpl in Hc.
    split; [done |]. split.
    + change (join (value :: rest)) with (value +:+ join rest).
      by rewrite append_assoc.
    + exists ([CallRead; CallOnChunk value] ++ evs). split.
      * rewrite Hc. by rewrite <- !app_assoc.
      * rewrite chunks_of_app, Hk. done.
Qed.

(** X9.  When [send] of the version on @built-in-ai/core returns and a
    callback was given, [onChunk] was called once for every chunk of the text
    stream, the empty ones included, in order, and the reply is the chunks
    put together. *)
Theorem BuiltInAiTs_send_passes_every_chunk {H : Type} (this_model : BuiltInAiTs.BuiltInAI)
    (prompt : string) (f : Callback H) (w w' : World H) (result : ReadableStream)
    (reply : string) :
  BuiltInAiTs.streamText this_model prompt = Returned result ->
  BuiltInAiTs.send this_model prompt (Some f) w = (Returned reply, w') ->
  failure result = None /\
  chunks_of (calls_since w w') = items result /\
  reply = join (items result).
Proof.
  intros Hresult Hsend. unfold BuiltInAiTs.send in Hsend. run.
  destruct (BuiltInAiTs.availability this_model) as [a|e]; simpl in Hsend; [| done].
  assert (Htail : forall evs0 w0,
    calls w0 = calls w ++ evs0 -> chunks_of evs0 = [] ->
    BuiltInAiTs.for_await (Some f) (items result) (failure result) ""
      (mkWorld (session w0) (calls w0 ++ [CallPromptStreaming (BuiltInAiTs.model this_model) prompt])
         (host w0)) = (Returned reply, w') ->
    failure result = None /\ chunks_of (calls_since w w') = items result /\
    reply = join (items result)).
  { intros evs0 w0 Hc0 Hk0 Hloop.
    apply BuiltInAiTs_loop_returned in Hloop as (Hfail & -> & evs & Hc & Hk).
    simpl in Hc. split; [done |]. split; [| done].
    rewrite (calls_since_app w w'
      (evs0 ++ [CallPromptStreaming (BuiltInAiTs.model this_model) prompt] ++ evs)).
    - by rewrite !chunks_of_app, Hk0, Hk.
    - rewrite Hc, Hc0. by rewrite <- !app_assoc. }
  destruct a; simpl in Hsend; [done | | |].
  - rewrite Hresult in Hsend. simpl in Hsend.
    by apply (Htail [CallAvailability]
                (mkWorld (session w) (calls w ++ [CallAvailability]) (host w))).
  - destruct (BuiltInAiTs.createSessionWithProgress this_model) as [[]|e];
      simpl in Hsend; [| done].
    rewrite Hresult in Hsend. simpl in Hsend.
    apply (Htail [CallAvailability; CallCreate true]
             (mkWorld (session w) ((calls w ++ [CallAvailability]) ++ [CallCreate true])
                (host w))); [simpl; by rewrite <- app_assoc | done | done].
  - destruct (BuiltInAiTs.createSessionWithProgress this_model) as [[]|e];
      simpl in Hsend; [| done].
    rewrite Hresult in Hsend. simpl in Hsend.
    apply (Htail [CallAvailability; CallCreate true]
             (mkWorld (session w) ((calls w ++ [CallAvailability]) ++ [CallCreate true])
                (host w))); [simpl; by rewrite <- app_assoc | done | done].
Qed.

Lemma BuiltInAiTs_send_passes_every_chunk_witness :
  exists w',
    BuiltInAiTs.send (streaming_model available ["Hel"; ""; "lo"] None) "hi" (Some collect)
      (new_ChatSession []) = (Returned "Hello", w') /\
    chunks_of (calls_since (new_ChatSession []) w') = ["Hel"; ""; "lo"].
Proof.
  eexists. split; [vm_compute; reflexivity |].
  edestruct (BuiltInAiTs_send_passes_every_chunk
               (streaming_model available ["Hel"; ""; "lo"] None) "hi" collect
               (new_ChatSession [])) as (_ & Hchunks & _).
  - reflexivity.
  - vm_compute; reflexivity.
  - exact Hchunks.
Defined.

(** X10.  The version on @built-in-ai/core keeps no session: each [send]
    asks for a session with progress again as long as the model reports
    "downloadable" or "downloading", whatever the relay did before, and asks
    for none once the model is "available".  On "unavailable" it throws the
    error of an unsupported browser right after the availability query. *)
Theorem BuiltInAiTs_send_creates_every_time {H : Type} (this_model : BuiltInAiTs.BuiltInAI)
    (a : Availability) (prompt : string) (onChunk : option (Callback H)) (w : World H) :
  BuiltInAiTs.availability this_model = Returned a ->
  create_flags (calls_since w (BuiltInAiTs.send this_model prompt onChunk w).2)
    = (if needs_download a then [true] else []) /\
  session (BuiltInAiTs.send this_model prompt onChunk w).2 = session w /\
  (a = unavailable ->
   BuiltInAiTs.send this_model prompt onChunk w
   = (Threw (Error msg_unsupported),
      mkWorld (session w) (calls w ++ [CallAvailability]) (host w))).
Proof.
  intros Ha. unfold BuiltInAiTs.send. run. rewrite Ha. simpl.
  assert (Htail : forall evs0 w0,
    calls w0 = calls w ++ evs0 -> session w0 = session w ->
    let rw :=
      match BuiltInAiTs.streamText this_model prompt with
      | Returned result =>
          BuiltInAiTs.for_await onChunk (items result) (failure result) ""
            (mkWorld (session w0)
               (calls w0 ++ [CallPromptStreaming (BuiltInAiTs.model this_model) prompt])
               (host w0))
      | Threw e =>
          (Threw e,
           mkWorld (session w0)
             (calls w0 ++ [CallPromptStreaming (BuiltInAiTs.model this_model) prompt])
             (host w0))
      end in
    create_flags (calls_since w rw.2) = create_flags evs0 /\ session rw.2 = session w).
  { intros evs0 w0 Hc0 Hs0. simpl.
    destruct (BuiltInAiTs.streamText this_model prompt) as [result|e]; simpl.
    - match goal with |- context [BuiltInAiTs.for_await ?c ?v ?f ?r ?w1] =>
        destruct (BuiltInAiTs_loop_calls c v f r w1) as (evs & Hc & Hse & Hf)
      end.
      simpl in *. split; [| by rewrite Hse].
      rewrite (calls_since_app w _
        (evs0 ++ [CallPromptStreaming (BuiltInAiTs.model this_model) prompt] ++ evs)).
      + rewrite !create_flags_app, (loop_calls_create_flags evs Hf). simpl.
        by rewrite app_nil_r.
      + rewrite Hc, Hc0. by rewrite <- !app_assoc.
    - split; [| done].
      rewrite (calls_since_app w _
        (evs0 ++ [CallPromptStreaming (BuiltInAiTs.model this_model) prompt])).
      + rewrite create_flags_app. simpl. by rewrite app_nil_r.
      + simpl. by rewrite Hc0, <- app_assoc. }
  destruct a; simpl.
  - rewrite (calls_since_app w _ [CallAvailability]) by done. by repeat split.
  - destruct (Htail [CallAvailability]
                (mkWorld (session w) (calls w ++ [CallAvailability]) (host w)))
      as [Hfl Hse]; [done | done |].
    split; [exact Hfl |]. split; [exact Hse | done].
  - destruct (BuiltInAiTs.createSessionWithProgress this_model) as [[]|e]; simpl.
    + destruct (Htail [CallAvailability; CallCreate true]
                  (mkWorld (session w) ((calls w ++ [CallAvailability]) ++ [CallCreate true])
                     (host w))) as [Hfl Hse];
        [simpl; by rewrite <- app_assoc | done |].
      split; [exact Hfl |]. split; [exact Hse | done].
    + rewrite (calls_since_app w _ [CallAvailability; CallCreate true])
        by (simpl; by rewrite <- app_assoc).
      by repeat split.
  - destruct (BuiltInAiTs.createSessionWithProgress this_model) as [[]|e]; simpl.
    + destruct (Htail [CallAvailability; CallCreate true]
                  (mkWorld (session w) ((calls w ++ [CallAvailability]) ++ [CallCreate true])
                     (host w))) as [Hfl Hse];
        [simpl; by rewrite <- app_assoc | done |].
      split; [exact Hfl |]. split; [exact Hse | done].
    + rewrite (calls_since_app w _ [CallAvailability; CallCreate true])
        by (simpl; by rewrite <- app_assoc).
      by repeat split.
Qed.

Lemma BuiltInAiTs_send_creates_every_time_witness :
  create_flags
    (calls_since
       (BuiltInAiTs.send (streaming_model downloading ["a"] None) "one" (Some collect)
          (new_ChatSession [])).2
       (BuiltInAiTs.send (streaming_model downloading ["b"] None) "two" (Some collect)
          (BuiltInAiTs.send (streaming_model downloading ["a"] None) "one" (Some collect)
             (new_ChatSession [])).2).2)
  = [true].
Proof.
  apply (BuiltInAiTs_send_creates_every_time (streaming_model downloading ["b"] None)
           downloading "two" (Some collect)
           (BuiltInAiTs.send (streaming_model downloading ["a"] None) "one"
              (Some collect) (new_ChatSession [])).2).
  reflexivity.
Defined.

(** ** [executeRequest] of src/kernel.ts *)

Lemma execute_errors_app (xs ys : list Published) :
  execute_errors (xs ++ ys) = execute_errors xs ++ execute_errors ys.
Proof. apply omap_app. Qed.

(** X11.  Whenever [executeRequest] returns a reply, it has left the
    execution counter and the parent header of the kernel alone and only
    added to the messages published, and the reply mirrors its [send]: an
    "ok" reply means that [send] returned, and comes with no execute-error
    message; an "error" reply means that [send] threw, has the message of the
    thrown value as evalue, and comes with exactly one execute-error message,
    of the same ename "Error", evalue and empty traceback.  Both replies
    carry the execution counter. *)
Theorem executeRequest_reply_mirrors_send (global : option LanguageModelClass)
    (content : Content) (w w' : World BaseKernel) (reply : ExecuteReply) :
  BuiltInChatKernel.executeRequest global content w = (Returned reply, w') ->
  executionCount (host w') = executionCount (host w) /\
  parentHeader (host w') = parentHeader (host w) /\
  exists ps,
    published (host w') = published (host w) ++ ps /\
    match reply with
    | ExecuteOk n payload user_expressions =>
        n = executionCount (host w) /\ execute_errors ps = [] /\
        exists text,
          KernelTs.send global (code_of content) (Some BuiltInChatKernel.on_chunk) w
          = (Returned text, w')
    | ExecuteError n ename evalue traceback =>
        n = executionCount (host w) /\ ename = "Error" /\ traceback = [] /\
        execute_errors ps = [(ename, evalue, traceback)] /\
        exists err w1,
          KernelTs.send global (code_of content) (Some BuiltInChatKernel.on_chunk) w
          = (Threw err, w1) /\
          evalue = BuiltInChatKernel.message_of err /\
          session w' = session w1 /\ calls w' = calls w1
    end.
Proof.
  rewrite executeRequest_unfold. intros Hrun.
  destruct (KernelTs_send_on_chunk global (code_of content) w) as (values & Hh & _).
  destruct (KernelTs.send _ _ _ w) as [[text|err] w1]; simpl in Hh; simplify_eq.
  - rewrite Hh. simpl. split; [done |]. split; [done |].
    exists (stdout_events (parentHeader (host w)) values).
    split; [done |]. split; [done |]. split; [apply execute_errors_stdout |].
    by exists text.
  - simpl. rewrite Hh. simpl. split; [done |]. split; [done |].
    exists (stdout_events (parentHeader (host w)) values
            ++ [PubExecuteError "Error" (BuiltInChatKernel.message_of err) []
                  (parentHeader (host w))]).
    rewrite <- app_assoc. split; [done |]. repeat split.
    + by rewrite execute_errors_app, execute_errors_stdout.
    + by exists err, w1.
Qed.

Lemma executeRequest_reply_mirrors_send_witness :
  exists err w1,
    (BuiltInChatKernel.executeRequest (Some (ready_class ["par"] (Some (Error "lost"))))
       {["code" := JsString "hi"]} (new_ChatSession (mkKernel 7 None []))).1
      = Returned (ExecuteError 7 "Error" "lost" []) /\
    KernelTs.send (Some (ready_class ["par"] (Some (Error "lost"))))
      (code_of {["code" := JsString "hi"]}) (Some BuiltInChatKernel.on_chunk)
      (new_ChatSession (mkKernel 7 None []))
      = (Threw err, w1) /\
    "lost" = BuiltInChatKernel.message_of err.
Proof.
  destruct (executeRequest_reply_mirrors_send
              (Some (ready_class ["par"] (Some (Error "lost"))))
              {["code" := JsString "hi"]} (new_ChatSession (mkKernel 7 None []))
              (BuiltInChatKernel.executeRequest
                 (Some (ready_class ["par"] (Some (Error "lost"))))
                 {["code" := JsString "hi"]} (new_ChatSession (mkKernel 7 None []))).2
              (ExecuteError 7 "Error" "lost" []))
    as (_ & _ & ps & _ & Hmirror).
  - vm_compute. reflexivity.
  - simpl in Hmirror. destruct Hmirror as (_ & _ & _ & _ & err & w1 & Hsend & Hmsg & _).
    exists err, w1. split; [vm_compute; reflexivity |]. split; [exact Hsend | exact Hmsg].
Defined.

(** X12.  [executeRequest] reads nothing of the content but its [code]: on
    two contents with the same [code] property it runs the same.  A [code]
    that is a string is the prompt as it stands, the empty string included:
    [executeRequest] calls [send] with that string and its own callback and
    answers from what that [send] does, and every prompt submitted is that
    string. *)
Theorem executeRequest_reads_code_only (global : option LanguageModelClass)
    (content1 content2 : Content) (w : World BaseKernel) :
  (content1 !! "code" = content2 !! "code" ->
   BuiltInChatKernel.executeRequest global content1 w
   = BuiltInChatKernel.executeRequest global content2 w) /\
  (forall s, content1 !! "code" = Some (JsString s) ->
   Forall (fun x => x.2 = s)
     (prompted (calls_since w (BuiltInChatKernel.executeRequest global content1 w).2))) /\
  (forall s, content1 !! "code" = Some (JsString s) ->
   BuiltInChatKernel.executeRequest global content1 w
   = match KernelTs.send global s (Some BuiltInChatKernel.on_chunk) w with
     | (Returned _, w1) => (Returned (ExecuteOk (executionCount (host w1)) [] ∅), w1)
     | (Threw err, w1) =>
         (Returned (ExecuteError (executionCount (host w1)) "Error"
                      (BuiltInChatKernel.message_of err) []),
          mkWorld (session w1) (calls w1)
            (BuiltInChatKernel.publishExecuteError "Error"
               (BuiltInChatKernel.message_of err) [] (parentHeader (host w1)) (host w1)))
     end).
Proof.
  split; [| split].
  - intros Hsame. rewrite !executeRequest_unfold.
    unfold code_of, get_prop. by rewrite Hsame.
  - intros s Hs.
    destruct (executeRequest_returns global content1 w) as [_ Hcalls].
    unfold calls_since. rewrite Hcalls.
    assert (Hcode : code_of content1 = s) by (unfold code_of, get_prop; by rewrite Hs).
    rewrite Hcode.
    apply (KernelTs_send_prompts global s (Some BuiltInChatKernel.on_chunk) w).
  - intros s Hs. rewrite executeRequest_unfold.
    assert (Hcode : code_of content1 = s) by (unfold code_of, get_prop; by rewrite Hs).
    by rewrite Hcode.
Qed.

Lemma executeRequest_reads_code_only_witness :
  BuiltInChatKernel.executeRequest (Some (ready_class ["Hi"] None))
    {["code" := JsString "2+2"]} (new_ChatSession (mkKernel 7 None []))
  = BuiltInChatKernel.executeRequest (Some (ready_class ["Hi"] None))
      (<["silent" := JsBool true]> {["code" := JsString "2+2"]})
      (new_ChatSession (mkKernel 7 None [])) /\
  Forall (fun x => x.2 = "2+2")
    (prompted (calls_since (new_ChatSession (mkKernel 7 None []))
       (BuiltInChatKernel.executeRequest (Some (ready_class ["Hi"] None))
          {["code" := JsString "2+2"]} (new_ChatSession (mkKernel 7 None []))).2)) /\
  prompted (calls_since (new_ChatSession (mkKernel 7 None []))
       (BuiltInChatKernel.executeRequest (Some (ready_class ["Hi"] None))
          {["code" := JsString "2+2"]} (new_ChatSession (mkKernel 7 None []))).2)
  = [(mkLanguageModel 1, "2+2")].
Proof.
  destruct (executeRequest_reads_code_only (Some (ready_class ["Hi"] None))
              {["code" := JsString "2+2"]}
              (<["silent" := JsBool true]> {["code" := JsString "2+2"]})
              (new_ChatSession (mkKernel 7 None []))) as (Hsame & Hprompt & Hrun).
  split; [| split].
  - apply Hsame. vm_compute. reflexivity.
  - apply Hprompt. vm_compute. reflexivity.
  - rewrite (Hrun "2+2") by (vm_compute; reflexivity). vm_compute. reflexivity.
Defined.

Lemma stream_texts_stdout (parent : option Header) (values : list string) :
  stream_texts (stdout_events parent values) = filter truthy values.
Proof.
  unfold stream_texts, stdout_events.
  induction (filter truthy values) as [|v vs IH]; [done |]. simpl. f_equal. exact IH.
Qed.

Lemma join_filter_truthy (values : list string) :
  join (filter truthy values) = join values.
Proof.
  induction values as [|value rest IH]; [done |].
  rewrite filter_truthy_cons, join_app, IH.
  change (join (value :: rest)) with (value +:+ join rest).
  destruct (truthy value) eqn:Ht; simpl.
  - by rewrite append_nil_r.
  - by rewrite (truthy_false value Ht).
Qed.

(** [send] under the callback of [executeRequest], once it has its stream. *)
Lemma KernelTs_send_on_chunk_stream (global : option LanguageModelClass) (prompt : string)
    (w : World BaseKernel) (stream : ReadableStream) :
  stream_of global prompt w = Some stream ->
  (KernelTs.send global prompt (Some BuiltInChatKernel.on_chunk) w).1
    = match failure stream with
      | None => Returned (join (items stream))
      | Some e => Threw e
      end /\
  host (KernelTs.send global prompt (Some BuiltInChatKernel.on_chunk) w).2
    = mkKernel (executionCount (host w)) (parentHeader (host w))
        (published (host w) ++ stdout_events (parentHeader (host w)) (items stream)).
Proof.
  intros Hstream. rewrite KernelTs_send_unfold. unfold stream_of in Hstream.
  pose proof (provision_cases global w) as Hp.
  destruct (provision global w) as [[[LM s]|e] w0]; [| done].
  assert (Hh0 : host w0 = host w) by (simpl in Hp; by inversion Hp).
  destruct (promptStreaming LM s prompt) as [stream'|e]; [| done].
  simplify_eq. simpl.
  match goal with |- context [KernelTs.read_loop ?c ?v ?f ?r ?w1] =>
    destruct (KernelTs_loop_on_chunk v f r w1) as [Hr Hh] end.
  simpl in *. by rewrite Hr, Hh, Hh0.
Qed.

(** X13.  When [executeRequest] answers "ok", the texts of the stream
    messages it published, put together in order, are the whole text the
    model streamed: nothing is lost or repeated on the way to the output. *)
Theorem executeRequest_streams_whole_reply (global : option LanguageModelClass)
    (content : Content) (w w' : World BaseKernel) (n : nat) (payload : list JsValue)
    (user_expressions : Content) :
  BuiltInChatKernel.executeRequest global content w
    = (Returned (ExecuteOk n payload user_expressions), w') ->
  exists stream,
    stream_of global (code_of content) w = Some stream /\
    failure stream = None /\
    join (stream_texts (published_since (host w) (host w'))) = join (items stream).
Proof.
  rewrite executeRequest_unfold. intros Hrun.
  destruct (KernelTs_send_on_chunk global (code_of content) w) as (values & Hh & Hret).
  destruct (KernelTs.send _ _ _ w) as [[reply|err] w1]; [| done].
  simplify_eq. simpl in *.
  destruct (Hret reply eq_refl) as (stream & Hstream & Hfail & <-).
  exists stream. split; [done |]. split; [done |].
  rewrite (published_since_app (host w) (host w')
             (stdout_events (parentHeader (host w)) (items stream)))
    by (by rewrite Hh).
  by rewrite stream_texts_stdout, join_filter_truthy.
Qed.

Lemma executeRequest_streams_whole_reply_witness :
  exists w',
    BuiltInChatKernel.executeRequest (Some (ready_class ["Hel"; ""; "lo"] None))
      {["code" := JsString "hi"]} (new_ChatSession (mkKernel 7 None []))
      = (Returned (ExecuteOk 7 [] ∅), w') /\
    join (stream_texts (published_since (mkKernel 7 None []) (host w'))) = "Hello".
Proof.
  eexists. split; [vm_compute; reflexivity |].
  edestruct (executeRequest_streams_whole_reply (Some (ready_class ["Hel"; ""; "lo"] None))
               {["code" := JsString "hi"]} (new_ChatSession (mkKernel 7 None [])))
    as (stream & Hstream & _ & Hjoin).
  - vm_compute; reflexivity.
  - vm_compute in Hstream. injection Hstream as <-. exact Hjoin.
Defined.

(** X14.  When the stream fails after some values, [executeRequest] has
    published the stdout messages of all the values read, then the
    execute-error with the message of the failure, and answers "error" with
    that message. *)
Theorem executeRequest_stream_failure (global : option LanguageModelClass)
    (content : Content) (w : World BaseKernel) (stream : ReadableStream) (e : Thrown) :
  stream_of global (code_of content) w = Some stream ->
  failure stream = Some e ->
  exists w',
    BuiltInChatKernel.executeRequest global content w
      = (Returned (ExecuteError (executionCount (host w)) "Error"
                     (BuiltInChatKernel.message_of e) []), w') /\
    published_since (host w) (host w')
      = stdout_events (parentHeader (host w)) (items stream)
        ++ [PubExecuteError "Error" (BuiltInChatKernel.message_of e) []
              (parentHeader (host w))].
Proof.
  intros Hstream Hfail. rewrite executeRequest_unfold.
  destruct (KernelTs_send_on_chunk_stream global (code_of content) w stream Hstream)
    as [Hout Hh].
  rewrite Hfail in Hout.
  destruct (KernelTs.send _ _ _ w) as [r w1]. simpl in *. subst r.
  eexists. rewrite Hh. simpl. split; [done |].
  apply published_since_app. simpl. by rewrite <- app_assoc.
Qed.

Lemma executeRequest_stream_failure_witness :
  exists w',
    BuiltInChatKernel.executeRequest (Some (ready_class ["par"; "tial"] (Some (Error "lost"))))
      {["code" := JsString "hi"]} (new_ChatSession (mkKernel 7 None []))
      = (Returned (ExecuteError 7 "Error" "lost" []), w') /\
    published_since (mkKernel 7 None []) (host w')
      = [PubStream "stdout" "par" None; PubStream "stdout" "tial" None;
         PubExecuteError "Error" "lost" [] None].
Proof.
  apply (executeRequest_stream_failure
           (Some (ready_class ["par"; "tial"] (Some (Error "lost"))))
           {["code" := JsString "hi"]} (new_ChatSession (mkKernel 7 None []))
           (mkStream ["par"; "tial"] (Some (Error "lost"))) (Error "lost")).
  - vm_compute; reflexivity.
  - reflexivity.
Defined.

(** X15.  Without the capability, or with the capability reporting
    "unavailable", [executeRequest] answers "error" with the message of the
    relay; the execute-error is the only message it publishes, no prompt is
    submitted and the session field is left as it was. *)
Theorem executeRequest_without_capability (global : option LanguageModelClass)
    (content : Content) (w : World BaseKernel) :
  (global = None \/
   exists cls, global = Some cls /\ availability cls = Returned unavailable) ->
  exists w',
    BuiltInChatKernel.executeRequest global content w
      = (Returned (ExecuteError (executionCount (host w)) "Error"
                     (match global with
                      | Some _ => msg_not_available
                      | None => msg_unsupported
                      end) []), w') /\
    published_since (host w) (host w')
      = [PubExecuteError "Error"
           (match global with
            | Some _ => msg_not_available
            | None => msg_unsupported
            end) [] (parentHeader (host w))] /\
    session w' = session w /\
    prompted (calls_since w w') = [].
Proof.
  intros Hcap. rewrite executeRequest_unfold, KernelTs_send_unfold.
  provision_inv global w; subst global.
  - eexists. split; [done |]. simpl. split; [by apply published_since_app |].
    split; [done |]. unfold calls_since. by rewrite drop_all.
  - destruct Hcap as [|(cls & ? & ?)]; simplify_eq; congruence.
  - eexists. split; [done |]. simpl. split; [by apply published_since_app |].
    split; [done |]. by rewrite (calls_since_app w _ [CallAvailability]).
  - destruct Hcap as [|(cls & ? & ?)]; simplify_eq; congruence.
  - destruct Hcap as [|(cls & ? & ?)]; simplify_eq; congruence.
  - destruct Hcap as [|(cls & ? & ?)]; simplify_eq; congruence.
Qed.

Lemma executeRequest_without_capability_witness :
  exists w',
    BuiltInChatKernel.executeRequest None {["code" := JsString "hi"]}
      (new_ChatSession (mkKernel 7 None []))
      = (Returned (ExecuteError 7 "Error" msg_unsupported []), w') /\
    published_since (mkKernel 7 None []) (host w')
      = [PubExecuteError "Error" msg_unsupported [] None].
Proof.
  destruct (executeRequest_without_capability None {["code" := JsString "hi"]}
              (new_ChatSession (mkKernel 7 None []))) as (w' & Hrun & Hpub & _).
  - by left.
  - exists w'. split; [exact Hrun | exact Hpub].
Defined.

(** X16.  On a new kernel, after a first [executeRequest] that answered
    "ok", a second [executeRequest] creates no session: over the two requests
    [LanguageModel.create] was called once, and the session of the first
    request is still the session of the relay. *)
Theorem executeRequest_session_created_once (k : BaseKernel)
    (global1 global2 : option LanguageModelClass) (content1 content2 : Content)
    (n : nat) (payload : list JsValue) (user_expressions : Content)
    (w1 w2 : World BaseKernel) (r2 : Outcome ExecuteReply) :
  BuiltInChatKernel.executeRequest global1 content1 (new_ChatSession k)
    = (Returned (ExecuteOk n payload user_expressions), w1) ->
  BuiltInChatKernel.executeRequest global2 content2 w1 = (r2, w2) ->
  creates (calls w2) = 1 /\
  exists s, session w1 = Some s /\ session w2 = Some s.
Proof.
  rewrite !executeRequest_unfold. intros Hfirst Hsecond.
  destruct (KernelTs_send_session global1 (code_of content1)
              (Some BuiltInChatKernel.on_chunk) (new_ChatSession k)) as (evs1 & Hc1 & Hnew).
  destruct (KernelTs.send global1 _ _ (new_ChatSession k)) as [[reply|err] u1]; [| done].
  simplify_eq. simpl in Hc1, Hnew.
  destruct (Hnew reply eq_refl) as (s & Hs1 & Hcr1).
  destruct (KernelTs_send_session global2 (code_of content2)
              (Some BuiltInChatKernel.on_chunk) w1) as (evs2 & Hc2 & Hold).
  rewrite Hs1 in Hold. destruct Hold as (Hs2 & Hcr2 & _).
  destruct (KernelTs.send global2 _ _ w1) as [[reply2|err2] u2];
    simplify_eq; simpl in *;
    (split; [rewrite Hc2, creates_app; lia | by exists s]).
Qed.

Lemma executeRequest_session_created_once_witness :
  exists w1 w2,
    BuiltInChatKernel.executeRequest (Some (ready_class ["Hi"] None))
      {["code" := JsString "one"]} (new_ChatSession (mkKernel 7 None []))
      = (Returned (ExecuteOk 7 [] ∅), w1) /\
    BuiltInChatKernel.executeRequest (Some (ready_class ["Ho"] None))
      {["code" := JsString "two"]} w1
      = (Returned (ExecuteOk 7 [] ∅), w2) /\
    creates (calls w2) = 1.
Proof.
  eexists. eexists. split; [vm_compute; reflexivity |].
  split; [vm_compute; reflexivity |].
  eapply (executeRequest_session_created_once (mkKernel 7 None [])
            (Some (ready_class ["Hi"] None)) (Some (ready_class ["Ho"] None))
            {["code" := JsString "one"]} {["code" := JsString "two"]}).
  - vm_compute; reflexivity.
  - vm_compute; reflexivity.
Defined.

(** ** [executeRequest] of src/federation.ts *)

Lemma FederationTs_send_alike {H : Type} (global : option LanguageModelClass)
    (prompt : string) (onChunk : option (Callback H)) (w : World H) :
  (FederationTs.send global prompt onChunk w).1 = (KernelTs.send global prompt onChunk w).1 /\
  alike (FederationTs.send global prompt onChunk w).2
    (KernelTs.send global prompt onChunk w).2.
Proof.
  rewrite KernelTs_send_unfold. unfold FederationTs.send. run.
  set (u := mkWorld (session w) (calls w ++ [CallConsoleLog _]) (host w)).
  destruct (provision_frame global u w) as (Hr & Hal & _); [done |].
  destruct (provision global u) as [r1 u1], (provision global w) as [r2 u2].
  simpl in *. subst r1. destruct r2 as [[LM s]|e]; simpl; [| done].
  destruct (promptStreaming LM s prompt) as [stream|e]; simpl; [| done].
  rewrite <- !app_assoc. simpl. rewrite FederationTs_loop_eq.
  set (v1 := mkWorld (session u1) _ (host u1)).
  set (v2 := mkWorld (session u2) _ (host u2)).
  destruct (KernelTs_loop_frame onChunk (items stream) (failure stream) "" v1 v2)
    as (Hr' & Hal' & _); [done |].
  destruct (KernelTs.read_loop _ _ _ _ v1) as [q1 x1],
           (KernelTs.read_loop _ _ _ _ v2) as [q2 x2].
  simpl in *. subst q1. by destruct q2.
Qed.

(** X17.  [executeRequest] of the kernel defined in src/federation.ts, which
    runs on the inline relay, does what [executeRequest] of src/kernel.ts
    does: the same reply, the same messages published, the same session
    field. *)
Theorem FederationKernel_executeRequest_same (global : option LanguageModelClass)
    (content : Content) (w : World BaseKernel) :
  (FederationKernel.executeRequest global content w).1
    = (BuiltInChatKernel.executeRequest global content w).1 /\
  host (FederationKernel.executeRequest global content w).2
    = host (BuiltInChatKernel.executeRequest global content w).2 /\
  session (FederationKernel.executeRequest global content w).2
    = session (BuiltInChatKernel.executeRequest global content w).2.
Proof.
  rewrite executeRequest_unfold. unfold FederationKernel.executeRequest.
  fold (code_of content). run.
  destruct (FederationTs_send_alike global (code_of content)
              (Some BuiltInChatKernel.on_chunk) w) as (Hr & Hs & Hh).
  destruct (FederationTs.send _ _ _ w) as [r1 u1], (KernelTs.send _ _ _ w) as [r2 u2].
  simpl in *. subst r1.
  destruct r2 as [reply|err]; simpl;
    unfold BuiltInChatKernel.this_get, BuiltInChatKernel.this_do; simpl;
    by rewrite Hs, Hh.
Qed.

(** ** src/federation.ts: the shared scope *)

(** X18.  Once [init] has stored a scope, [importShared] resolves packages
    in that scope only, whatever the global share scope holds, and leaves the
    stored scope as it is, whether the import succeeds or fails. *)
Theorem importShared_uses_initialised_scope (scope : FederationContainer.Scope)
    (window_default1 window_default2 : option FederationContainer.Scope) (pkg : string)
    (sharedScope : option FederationContainer.Scope) :
  FederationContainer.importShared window_default1 pkg
    (FederationContainer.init scope sharedScope)
  = FederationContainer.importShared window_default2 pkg
      (FederationContainer.init scope sharedScope) /\
  (FederationContainer.importShared window_default1 pkg
     (FederationContainer.init scope sharedScope)).2 = Some scope.
Proof.
  unfold FederationContainer.importShared, FederationContainer.init.
  split; [done |].
  destruct (FederationContainer.own_prop scope pkg) as [[|[key version] rest]|];
    [done | | done].
  by destruct (FederationContainer.get version).
Qed.

(** X19.  Before any [init], [importShared] falls back on the global default
    share scope and stores it, also when the import then fails: later imports
    run as after [init] with that scope, whatever the global scope has become.
    With no global scope either, it throws, naming the package, and the
    scope stays unset. *)
Theorem importShared_fallback_is_kept (window_default : option FederationContainer.Scope)
    (window_later : option FederationContainer.Scope) (pkg pkg' : string) :
  match window_default with
  | Some scope =>
      (FederationContainer.importShared window_default pkg None).2 = Some scope /\
      FederationContainer.importShared window_later pkg'
        (FederationContainer.importShared window_default pkg None).2
      = FederationContainer.importShared None pkg' (FederationContainer.init scope None)
  | None =>
      FederationContainer.importShared window_default pkg None
      = (Threw (Error ("[built-in-chat] Shared scope not initialized when requesting "
                       +:+ pkg)), None)
  end.
Proof.
  destruct window_default as [scope|]; [| done].
  assert (Hkept : (FederationContainer.importShared (Some scope) pkg None).2 = Some scope).
  { unfold FederationContainer.importShared.
    destruct (FederationContainer.own_prop scope pkg) as [[|[key version] rest]|];
      [done | | done].
    by destruct (FederationContainer.get version). }
  split; [done |]. by rewrite Hkept.
Qed.

(** X20.  [importShared] takes the first version listed for the package and
    no other: the outcome is the same as with that version alone, whatever
    versions come after it and whatever else the scope holds.  A package
    listed without any version is an error. *)
Theorem importShared_first_version_only (window_default : option FederationContainer.Scope)
    (pkg key : string) (version : FederationContainer.Version)
    (rest : FederationContainer.Versions) (scope : FederationContainer.Scope) :
  (FederationContainer.own_prop scope pkg = Some ((key, version) :: rest) ->
   (FederationContainer.importShared window_default pkg (Some scope)).1
   = (FederationContainer.importShared None pkg (Some [(pkg, [(key, version)])])).1) /\
  (FederationContainer.own_prop scope pkg = Some [] ->
   (FederationContainer.importShared window_default pkg (Some scope)).1
   = Threw (Error ("[built-in-chat] No versions available for " +:+ pkg))).
Proof.
  unfold FederationContainer.importShared. split; intros Hprop; rewrite Hprop; [| done].
  simpl. rewrite bool_decide_eq_true_2 by done.
  by destruct (FederationContainer.get version).
Qed.

Lemma importShared_first_version_only_witness :
  (FederationContainer.importShared None "@jupyterlite/kernel"
     (Some [("@jupyterlab/coreutils", []);
            ("@jupyterlite/kernel",
             [("0.6.0", FederationContainer.mkVersion
                 (Some (Returned (FederationContainer.VThenable
                    (Returned (FederationContainer.SFunction
                       (Returned (FederationContainer.VSettled
                          (FederationContainer.SValue 1)))))))));
              ("0.5.0", FederationContainer.mkVersion None)])])).1
  = Returned (FederationContainer.SValue 1).
Proof.
  etransitivity.
  - apply (proj1 (importShared_first_version_only None "@jupyterlite/kernel" "0.6.0"
             (FederationContainer.mkVersion
                (Some (Returned (FederationContainer.VThenable
                   (Returned (FederationContainer.SFunction
                      (Returned (FederationContainer.VSettled
                         (FederationContainer.SValue 1)))))))))
             [("0.5.0", FederationContainer.mkVersion None)] _)).
    vm_compute. reflexivity.
  - vm_compute. reflexivity.
Defined.

(** ** The two conventions side by side *)

Lemma length_append (s t : string) :
  String.length (s +:+ t) = String.length s + String.length t.
Proof. induction s as [|a s IH]; [done |]. rewrite append_cons. simpl. by rewrite IH. Qed.

Lemma append_eq_r (s t : string) : s +:+ t = t -> s = "".
Proof.
  intros Heq. apply (f_equal String.length) in Heq. rewrite length_append in Heq.
  destruct s; [done | simpl in Heq; lia].
Qed.

Lemma join_empty (values : list string) :
  join values = "" <-> Forall (fun v => v = "") values.
Proof.
  induction values as [|value rest IH].
  - split; [constructor | done].
  - change (join (value :: rest)) with (value +:+ join rest). split.
    + intros Heq. destruct value; [| done]. rewrite append_nil_l in Heq.
      constructor; [done | by apply IH].
    + intros Hall. apply Forall_cons in Hall as [-> Hrest].
      rewrite append_nil_l. by apply IH.
Qed.

Lemma join_is_last_value (values : list string) :
  join values = last_value values <-> Forall (fun v => v = "") (removelast values).
Proof.
  induction values as [|l init _] using rev_ind.
  - split; [constructor | done].
  - rewrite removelast_last, join_app. unfold last_value. rewrite last_snoc. simpl.
    change (join [l]) with (l +:+ ""). rewrite append_nil_r.
    rewrite <- join_empty. split.
    + apply append_eq_r.
    + by intros ->.
Qed.

(** X21.  On the same stream, when both return, [send] of src/kernel.ts
    (which appends) and [send] of src/ChatSession.ts (which keeps the last
    value) give the same reply exactly when every value before the last one
    is empty: on any other stream the two relays disagree. *)
Theorem KernelTs_ChatSessionTs_agree_iff {H : Type} (global : option LanguageModelClass)
    (prompt : string) (onChunk1 onChunk2 : option (Callback H)) (w w1 w2 : World H)
    (stream : ReadableStream) (reply1 reply2 : string) :
  stream_of global prompt w = Some stream ->
  KernelTs.send global prompt onChunk1 w = (Returned reply1, w1) ->
  ChatSessionTs.send global prompt onChunk2 w = (Returned reply2, w2) ->
  (reply1 = reply2 <-> Forall (fun v => v = "") (removelast (items stream))).
Proof.
  intros Hstream Hk Hc.
  rewrite KernelTs_send_unfold in Hk. rewrite ChatSessionTs_send_unfold in Hc.
  unfold stream_of in Hstream.
  destruct (provision global w) as [[[LM s]|e] w0]; [| done].
  destruct (promptStreaming LM s prompt) as [stream'|e]; [| done].
  simplify_eq. simpl in Hk, Hc.
  destruct (KernelTs.read_loop _ _ _ _ _) as [r1 u1] eqn:Hloop1.
  destruct (ChatSessionTs.read_loop _ _ _ _ _ _) as [r2 u2] eqn:Hloop2.
  simpl in Hk, Hc. simplify_eq.
  apply KernelTs_loop_returned in Hloop1 as (_ & -> & _).
  apply ChatSessionTs_loop_returned in Hloop2 as (_ & ->).
  rewrite append_nil_l. apply join_is_last_value.
Qed.

Lemma KernelTs_ChatSessionTs_agree_iff_witness :
  (KernelTs.send (Some (ready_class ["Hel"; "Hello"] None)) "hi" (Some collect)
     (new_ChatSession [])).1 = Returned "HelHello" /\
  (ChatSessionTs.send (Some (ready_class ["Hel"; "Hello"] None)) "hi" (Some collect)
     (new_ChatSession [])).1 = Returned "Hello" /\
  ~ Forall (fun v => v = "") (removelast ["Hel"; "Hello"]).
Proof.
  split; [vm_compute; reflexivity |]. split; [vm_compute; reflexivity |].
  intros Hall.
  apply (KernelTs_ChatSessionTs_agree_iff (Some (ready_class ["Hel"; "Hello"] None)) "hi"
           (Some collect) (Some collect) (new_ChatSession [])
           (KernelTs.send (Some (ready_class ["Hel"; "Hello"] None)) "hi" (Some collect)
              (new_ChatSession [])).2
           (ChatSessionTs.send (Some (ready_class ["Hel"; "Hello"] None)) "hi" (Some collect)
              (new_ChatSession [])).2
           (mkStream ["Hel"; "Hello"] None) "HelHello" "Hello") in Hall;
    [discriminate Hall | vm_compute; reflexivity | vm_compute; reflexivity
     | vm_compute; reflexivity].
Defined.
